(** * Shallow embedding of [capital_quickstart.py] (src/main.py)

    [CapitalClient] keeps two session tokens ([self.cst], [self.sec]),
    talks to the REST API through [requests] and streams quotes over a
    websocket.  Network effects are modelled by an oracle of replies and a
    log of the requests the client issues; Python exceptions by an error
    result that aborts the rest of the method, as [raise] does. *)

From Stdlib Require Import List String Ascii Bool ZArith QArith Lia.
Import ListNotations.
Open Scope list_scope.
Open Scope string_scope.

(** ** Python values as they travel through [json] and [requests] *)

(** A decoded JSON value / the Python object it denotes.  Python floats are
    represented by the rational they denote (rounding to binary64 is not
    modelled).  A dict is an association list in insertion order without
    duplicate keys. *)
Inductive json : Type :=
| JNull
| JBool (b : bool)
| JInt (n : Z)
| JFloat (q : Q)
| JStr (s : string)
| JArr (xs : list json)
| JObj (kvs : list (string * json)).

(** Python exceptions raised on the paths of [CapitalClient]. *)
Inductive exn : Type :=
| HTTPError (url : string) (status : Z)   (* Response.raise_for_status *)
| ConnectionError                         (* requests / create_connection transport failure *)
| RuntimeError (msg : string)             (* raise RuntimeError(...) *)
| JSONDecodeError                         (* json.loads / Response.json on bad text *)
| AttributeError (attr : string)          (* method missing on the receiver *)
| TypeError
| ValueError
| WebSocketError.                         (* websocket-client send/recv/close failures *)

(** The class of an exception, which is what an [except] clause can tell
    apart. *)
Inductive exn_class : Type :=
| CHTTPError | CConnectionError | CRuntimeError | CJSONDecodeError
| CAttributeError | CTypeError | CValueError | CWebSocketError.

Definition exn_class_of (e : exn) : exn_class :=
  match e with
  | HTTPError _ _ => CHTTPError
  | ConnectionError => CConnectionError
  | RuntimeError _ => CRuntimeError
  | JSONDecodeError => CJSONDecodeError
  | AttributeError _ => CAttributeError
  | TypeError => CTypeError
  | ValueError => CValueError
  | WebSocketError => CWebSocketError
  end.

(** Lookup in a Python dict ([d.get(k)] gives [None] when absent). *)
Fixpoint dict_get {V} (d : list (string * V)) (k : string) : option V :=
  match d with
  | [] => None
  | (k', v) :: d' => if String.eqb k k' then Some v else dict_get d' k
  end.

(** [k in d] *)
Definition dict_has {V} (d : list (string * V)) (k : string) : bool :=
  match dict_get d k with Some _ => true | None => false end.

(** [d[k] = v]: overwrite in place if present, else append. *)
Fixpoint dict_set {V} (d : list (string * V)) (k : string) (v : V)
  : list (string * V) :=
  match d with
  | [] => [(k, v)]
  | (k', v') :: d' =>
      if String.eqb k k' then (k', v) :: d' else (k', v') :: dict_set d' k v
  end.

(** [d.update(e)] *)
Definition dict_update {V} (d e : list (string * V)) : list (string * V) :=
  fold_left (fun acc kv => dict_set acc (fst kv) (snd kv)) e d.

(** Truthiness of an optional string ([None] and [""] are falsy). *)
Definition truthy_str (o : option string) : bool :=
  match o with
  | None => false
  | Some s => negb (String.eqb s "")
  end.

(** A Python [str | None] as a JSON value. *)
Definition opt_str (o : option string) : json :=
  match o with None => JNull | Some s => JStr s end.

(** ASCII [str.upper] (non-ASCII case mapping is not modelled). *)
Definition ascii_upper (c : ascii) : ascii :=
  let n := nat_of_ascii c in
  if (97 <=? n)%nat && (n <=? 122)%nat then ascii_of_nat (n - 32) else c.

Fixpoint str_upper (s : string) : string :=
  match s with
  | EmptyString => EmptyString
  | String c s' => String (ascii_upper c) (str_upper s')
  end.

(** [direction.upper()] on any Python value. *)
Definition py_upper (v : json) : option json :=
  match v with
  | JStr s => Some (JStr (str_upper s))
  | _ => None
  end.

(** ASCII case-insensitive key equality, as in [requests]' header dict. *)
Definition key_ieq (a b : string) : bool :=
  String.eqb (str_upper a) (str_upper b).

Fixpoint header_get (hs : list (string * string)) (k : string) : option string :=
  match hs with
  | [] => None
  | (k', v) :: hs' => if key_ieq k k' then Some v else header_get hs' k
  end.

(** Outcome of a Python computation that may raise. *)
Inductive result (A : Type) : Type :=
| Ok (a : A)
| Err (e : exn).
Arguments Ok {A} a.
Arguments Err {A} e.

(** Decimal rendering of an integer, as [str(n)]. *)
Fixpoint nat_digits (fuel : nat) (n : Z) (acc : string) : string :=
  match fuel with
  | O => acc
  | S f =>
      let acc' := String (ascii_of_nat (48 + Z.to_nat (n mod 10))) acc in
      if n <? 10 then acc' else nat_digits f (n / 10) acc'
  end%Z.

Definition z_to_str (n : Z) : string :=
  match n with
  | Z0 => "0"
  | Zpos p => nat_digits (Pos.size_nat p) (Zpos p) ""
  | Zneg p => "-" ++ nat_digits (Pos.size_nat p) (Zpos p) ""
  end.

Fixpoint join (sep : string) (xs : list string) : string :=
  match xs with
  | [] => ""
  | [x] => x
  | x :: xs' => x ++ sep ++ join sep xs'
  end.

(** [str(v)] as used by an f-string.  A non-integral float is rendered as
    its fraction (Python's shortest round-trip repr is not modelled), and
    [repr] of a str inside a container does not escape. *)
Fixpoint py_str (v : json) : string :=
  match v with
  | JNull => "None"
  | JBool true => "True"
  | JBool false => "False"
  | JInt n => z_to_str n
  | JFloat q =>
      if (Zpos (Qden q) =? 1)%Z then z_to_str (Qnum q) ++ ".0"
      else z_to_str (Qnum q) ++ "/" ++ z_to_str (Zpos (Qden q))
  | JStr s => s
  | JArr xs => "[" ++ join ", " (map py_str xs) ++ "]"
  | JObj kvs =>
      "{" ++ join ", " (map (fun kv => "'" ++ fst kv ++ "': " ++ py_str (snd kv)) kvs) ++ "}"
  end.

(** ** A JSON decoder

    [json.loads] is a library function; the client code is verified for
    every decoder (it is a parameter of the sections below).  This decoder
    follows the JSON grammar and is the one used on concrete inputs.  It
    does not accept Python's [NaN]/[Infinity] extensions and decodes [\u]
    escapes only below 128. *)

Definition dq : ascii := ascii_of_nat 34.
Definition bslash : ascii := ascii_of_nat 92.

Definition is_ws (c : ascii) : bool :=
  let n := nat_of_ascii c in ((n =? 32) || (n =? 9) || (n =? 10) || (n =? 13))%nat.

Definition is_digit (c : ascii) : bool :=
  let n := nat_of_ascii c in ((48 <=? n) && (n <=? 57))%nat.

Definition digit_val (c : ascii) : Z := Z.of_nat (nat_of_ascii c - 48).

Definition hex_val (c : ascii) : option Z :=
  let n := nat_of_ascii c in
  if ((48 <=? n) && (n <=? 57))%nat then Some (Z.of_nat (n - 48))
  else if ((97 <=? n) && (n <=? 102))%nat then Some (Z.of_nat (n - 87))
  else if ((65 <=? n) && (n <=? 70))%nat then Some (Z.of_nat (n - 55))
  else None.

Fixpoint skip_ws (s : string) : string :=
  match s with
  | String c r => if is_ws c then skip_ws r else s
  | EmptyString => s
  end.

Definition ch (c : ascii) (s : string) : bool :=
  match s with String c' _ => Ascii.eqb c c' | EmptyString => false end.

Definition tail1 (s : string) : string :=
  match s with String _ r => r | EmptyString => EmptyString end.

(** Body of a string literal after the opening quote. *)
Fixpoint p_str (s : string) : option (string * string) :=
  match s with
  | EmptyString => None
  | String c r =>
      if Ascii.eqb c dq then Some (EmptyString, r)
      else if Ascii.eqb c bslash then
        match r with
        | String e r' =>
            let esc :=
              match nat_of_ascii e with
              | 34%nat => Some dq | 92%nat => Some bslash | 47%nat => Some "/"%char
              | 98%nat => Some (ascii_of_nat 8) | 102%nat => Some (ascii_of_nat 12)
              | 110%nat => Some (ascii_of_nat 10) | 114%nat => Some (ascii_of_nat 13)
              | 116%nat => Some (ascii_of_nat 9)
              | _ => None
              end in
            match esc with
            | Some c' =>
                match p_str r' with
                | Some (x, rest) => Some (String c' x, rest)
                | None => None
                end
            | None =>
                if (nat_of_ascii e =? 117)%nat then
                  match r' with
                  | String h1 (String h2 (String h3 (String h4 r''))) =>
                      match hex_val h1, hex_val h2, hex_val h3, hex_val h4 with
                      | Some a, Some b, Some c1, Some d =>
                          let code := (((a * 16 + b) * 16 + c1) * 16 + d)%Z in
                          if (code <? 128)%Z then
                            match p_str r'' with
                            | Some (x, rest) => Some (String (ascii_of_nat (Z.to_nat code)) x, rest)
                            | None => None
                            end
                          else None
                      | _, _, _, _ => None
                      end
                  | _ => None
                  end
                else None
            end
        | EmptyString => None
        end
      else if (nat_of_ascii c <? 32)%nat then None
      else match p_str r with
           | Some (x, rest) => Some (String c x, rest)
           | None => None
           end
  end.

Fixpoint p_digits (s : string) (acc : Z) (k : nat) : Z * nat * string :=
  match s with
  | String c r => if is_digit c then p_digits r (acc * 10 + digit_val c)%Z (S k) else (acc, k, s)
  | EmptyString => (acc, k, s)
  end.

(** A number literal: optional minus, integer part without leading zeros,
    optional fraction, optional exponent. *)
Definition p_number (s : string) : option (json * string) :=
  let neg := ch "-"%char s in
  let s1 := if neg then tail1 s else s in
  let ipart :=
    if ch "0"%char s1 then Some (0%Z, tail1 s1)
    else match s1 with
         | String c _ => if is_digit c then
                           let '(v, _, r) := p_digits s1 0 0 in Some (v, r)
                         else None
         | EmptyString => None
         end in
  match ipart with
  | None => None
  | Some (ip, s2) =>
      let frac :=
        if ch "."%char s2 then
          let '(fv, k, r) := p_digits (tail1 s2) 0 0 in
          if (k =? 0)%nat then None else Some (true, (ip * 10 ^ Z.of_nat k + fv)%Z, Z.of_nat k, r)
        else Some (false, ip, 0%Z, s2) in
      match frac with
      | None => None
      | Some (isf, m, k, s3) =>
          let ex :=
            if ch "e"%char s3 || ch "E"%char s3 then
              let s4 := tail1 s3 in
              let eneg := ch "-"%char s4 in
              let s5 := if eneg || ch "+"%char s4 then tail1 s4 else s4 in
              let '(ev, ek, r) := p_digits s5 0 0 in
              if (ek =? 0)%nat then None else Some (true, if eneg then (- ev)%Z else ev, r)
            else Some (false, 0%Z, s3) in
          match ex with
          | None => None
          | Some (ise, e, s6) =>
              let m' := if neg then (- m)%Z else m in
              if isf || ise then
                let net := (e - k)%Z in
                let q := if (0 <=? net)%Z then Qmake (m' * 10 ^ net) 1
                         else Qmake m' (Z.to_pos (10 ^ (- net))) in
                Some (JFloat (Qred q), s6)
              else Some (JInt m', s6)
          end
      end
  end.

Fixpoint starts (p s : string) : bool :=
  match p, s with
  | EmptyString, _ => true
  | String a p', String b s' => Ascii.eqb a b && starts p' s'
  | _, _ => false
  end.

Fixpoint p_value (f : nat) (s0 : string) : option (json * string) :=
  match f with
  | O => None
  | S f =>
      let s := skip_ws s0 in
      if ch "{"%char s then
        let r := skip_ws (tail1 s) in
        if ch "}"%char r then Some (JObj [], tail1 r) else p_members f r []
      else if ch "["%char s then
        let r := skip_ws (tail1 s) in
        if ch "]"%char r then Some (JArr [], tail1 r) else p_items f r []
      else if ch dq s then
        match p_str (tail1 s) with Some (x, r) => Some (JStr x, r) | None => None end
      else if starts "null" s then Some (JNull, substring 4 (length s) s)
      else if starts "true" s then Some (JBool true, substring 4 (length s) s)
      else if starts "false" s then Some (JBool false, substring 5 (length s) s)
      else p_number s
  end
with p_items (f : nat) (s : string) (acc : list json) : option (json * string) :=
  match f with
  | O => None
  | S f =>
      match p_value f s with
      | None => None
      | Some (v, r) =>
          let r := skip_ws r in
          if ch ","%char r then p_items f (tail1 r) (acc ++ [v])%list
          else if ch "]"%char r then Some (JArr (acc ++ [v])%list, tail1 r)
          else None
      end
  end
with p_members (f : nat) (s : string) (acc : list (string * json)) : option (json * string) :=
  match f with
  | O => None
  | S f =>
      let s := skip_ws s in
      if ch dq s then
        match p_str (tail1 s) with
        | None => None
        | Some (k, r) =>
            let r := skip_ws r in
            if ch ":"%char r then
              match p_value f (tail1 r) with
              | None => None
              | Some (v, r') =>
                  let r' := skip_ws r' in
                  let acc' := dict_set acc k v in
                  if ch ","%char r' then p_members f (tail1 r') acc'
                  else if ch "}"%char r' then Some (JObj acc', tail1 r')
                  else None
              end
            else None
        end
      else None
  end.

(** [json.loads(text)]: [None] stands for [JSONDecodeError]. *)
Definition json_loads_std (s : string) : option json :=
  match p_value (S (length s)) s with
  | Some (v, r) => if String.eqb (skip_ws r) "" then Some v else None
  | None => None
  end.

(** Test inputs are written with ['] for the JSON double quote. *)
Definition jtext (s : string) : string :=
  string_of_list_ascii
    (map (fun c => if Ascii.eqb c "'"%char then dq else c) (list_ascii_of_string s)).

(** ** The [requests] side: requests issued, replies received *)

Record request : Type := mkRequest {
  req_method : string;
  req_url : string;
  req_headers : list (string * string);
  req_params : list (string * string);
  req_json : option json;
  req_timeout : Z }.

Record response : Type := mkResponse {
  status_code : Z;
  resp_headers : list (string * string);
  resp_text : string }.

(** The attributes of a [CapitalClient] instance. *)
Record client : Type := mkClient {
  base_url : string;
  api_key : string;
  identifier : string;
  api_pass : string;
  cst : option string;
  sec : option string }.

(** [CapitalClient.__init__] *)
Definition new_client (b k i p : string) : client := mkClient b k i p None None.

(** The client object together with the network: [sent] lists the
    requests issued so far (oldest first), [replies] is the oracle of the
    venue's answers to the next requests ([None]: the transport fails). *)
Record world : Type := mkWorld {
  cl : client;
  sent : list request;
  replies : list (option response) }.

Definition set_tokens (c : client) (t s : option string) : client :=
  mkClient (base_url c) (api_key c) (identifier c) (api_pass c) t s.

(** State and exception monad: a Python method call. *)
Definition M (A : Type) : Type := world -> result A * world.

Definition ret {A} (a : A) : M A := fun w => (Ok a, w).
Definition raise {A} (e : exn) : M A := fun w => (Err e, w).
Definition bind {A B} (m : M A) (k : A -> M B) : M B :=
  fun w => match m w with
           | (Ok a, w') => k a w'
           | (Err e, w') => (Err e, w')
           end.
Definition get_client : M client := fun w => (Ok (cl w), w).
Definition put_client (c : client) : M unit :=
  fun w => (Ok tt, mkWorld c (sent w) (replies w)).
Definition of_option {A} (o : option A) (e : exn) : M A :=
  match o with Some a => ret a | None => raise e end.

Notation "x <- m ;; k" := (bind m (fun x => k))
  (at level 61, m at next level, right associativity).

(** [requests.get] / [requests.post]: the request is sent (logged), then
    the oracle answers it. *)
Definition http (meth url : string) (hdrs params : list (string * string))
    (body : option json) (timeout : Z) : M response :=
  fun w =>
    let log := (sent w ++ [mkRequest meth url hdrs params body timeout])%list in
    match replies w with
    | Some r :: rest => (Ok r, mkWorld (cl w) log rest)
    | None :: rest => (Err ConnectionError, mkWorld (cl w) log rest)
    | [] => (Err ConnectionError, mkWorld (cl w) log [])
    end.

(** [r.raise_for_status()] *)
Definition raise_for_status (url : string) (r : response) : M unit :=
  let s := status_code r in
  if (400 <=? s)%Z && (s <? 600)%Z then raise (HTTPError url s) else ret tt.

(** [float(x)]; a str is converted when it is a JSON number literal
    (Python's further spellings such as ["inf"] are not modelled). *)
Definition py_float (v : json) : result json :=
  match v with
  | JInt n => Ok (JFloat (inject_Z n))
  | JFloat q => Ok (JFloat q)
  | JBool b => Ok (JFloat (if b then 1 else 0))
  | JStr s =>
      match json_loads_std s with
      | Some (JInt n) => Ok (JFloat (inject_Z n))
      | Some (JFloat q) => Ok (JFloat q)
      | _ => Err ValueError
      end
  | _ => Err TypeError
  end.

Definition of_result {A} (r : result A) : M A :=
  match r with Ok a => ret a | Err e => raise e end.

(** [x.get(k)] on a decoded body: only a dict has [.get]. *)
Definition py_get (v : json) (k : string) : M json :=
  match v with
  | JObj d => ret (match dict_get d k with Some x => x | None => JNull end)
  | _ => raise (AttributeError "get")
  end.

(** Keyword arguments whose value is not [None]. *)
Definition non_null (risk : list (string * json)) : list (string * json) :=
  filter (fun kv => match snd kv with JNull => false | _ => true end) risk.

Section Rest.

(** [json.loads], used by [Response.json]; [None] is [JSONDecodeError]. *)
Variable json_loads : string -> option json.

Definition resp_json (r : response) : M json :=
  of_option (json_loads (resp_text r)) JSONDecodeError.

(** [CapitalClient.login] *)
Definition login : M bool :=
  c <- get_client ;;
  let url := base_url c ++ "/api/v1/session" in
  let hdrs := [("X-CAP-API-KEY", api_key c); ("Content-Type", "application/json")] in
  let body := JObj [("identifier", JStr (identifier c)); ("password", JStr (api_pass c));
                    ("encryptedPassword", JBool false)] in
  r <- http "POST" url hdrs [] (Some body) 20 ;;
  _ <- raise_for_status url r ;;
  _ <- put_client (set_tokens c (header_get (resp_headers r) "CST")
                              (sec c)) ;;
  c1 <- get_client ;;
  _ <- put_client (set_tokens c1 (cst c1) (header_get (resp_headers r) "X-SECURITY-TOKEN")) ;;
  c2 <- get_client ;;
  if negb (truthy_str (cst c2)) || negb (truthy_str (sec c2))
  then raise (RuntimeError "Login ok but CST / X-SECURITY-TOKEN missing in headers.")
  else ret true.

(** [CapitalClient._auth_headers] *)
Definition auth_headers : M (list (string * string)) :=
  c <- get_client ;;
  match cst c, sec c with
  | Some t, Some s =>
      if truthy_str (Some t) && truthy_str (Some s)
      then ret [("CST", t); ("X-SECURITY-TOKEN", s)]
      else raise (RuntimeError "Not authenticated; call login() first.")
  | _, _ => raise (RuntimeError "Not authenticated; call login() first.")
  end.

(** [CapitalClient.ping] *)
Definition ping : M json :=
  c <- get_client ;;
  let url := base_url c ++ "/api/v1/ping" in
  h <- auth_headers ;;
  r <- http "GET" url h [] None 10 ;;
  _ <- raise_for_status url r ;;
  resp_json r.

(** [CapitalClient.search_markets]; [epics=None] and [epics=[]] are both
    falsy and are both the empty list here. *)
Definition search_markets (search_term : string) (epics : list string) : M json :=
  c <- get_client ;;
  let url := base_url c ++ "/api/v1/markets" in
  let params := [("searchTerm", search_term)] in
  let params := match epics with [] => params | _ => dict_set params "epics" (join "," epics) end in
  h <- auth_headers ;;
  r <- http "GET" url h params None 20 ;;
  _ <- raise_for_status url r ;;
  resp_json r.

(** [CapitalClient.place_market_order(epic, direction, size, **risk)] *)
Definition place_market_order (epic direction size : json)
    (risk : list (string * json)) : M json :=
  c <- get_client ;;
  let url := base_url c ++ "/api/v1/positions" in
  d <- of_option (py_upper direction) (AttributeError "upper") ;;
  sz <- of_result (py_float size) ;;
  let payload := [("epic", epic); ("direction", d); ("size", sz)] in
  let payload := dict_update payload (non_null risk) in
  h <- auth_headers ;;
  r <- http "POST" url (dict_set h "Content-Type" "application/json") [] (Some (JObj payload)) 20 ;;
  _ <- raise_for_status url r ;;
  j <- resp_json r ;;
  deal_ref <- py_get j "dealReference" ;;
  let curl := base_url c ++ "/api/v1/confirms/" ++ py_str deal_ref in
  h2 <- auth_headers ;;
  conf <- http "GET" curl h2 [] None 20 ;;
  _ <- raise_for_status curl conf ;;
  cj <- resp_json conf ;;
  ret (JObj [("dealReference", deal_ref); ("confirm", cj)]).

End Rest.

(** ** The websocket stream ([CapitalClient.stream_quotes])

    What the client does on the socket, in order. *)
Inductive ws_event : Type :=
| WsSend (m : json)       (* ws.send(json.dumps(m)) *)
| Consume (p : json)      (* on_quote(p) *)
| WsClose.                (* ws.close() attempted *)

(** Result of one [ws.recv()]: a frame ([None] or text) or an exception
    (e.g. the socket's read timeout or a closed connection). *)
Inductive recv_outcome : Type :=
| RecvMsg (raw : option string)
| RecvExn (e : exn).

(** The environment of one streaming session: outcome of
    [create_connection], of the subscribe [ws.send], the clock reading that
    fixes [t_end], then the successive iterations of the receive loop (the
    clock reading of the [while] test and what [ws.recv()] returns), and
    the outcome of [ws.close()].  Times are whole seconds.  The keepalive
    thread sleeps 540 s before each send and runs concurrently; its sends
    are not part of this model. *)
Record ws_env : Type := mkWsEnv {
  ws_connect : option exn;
  ws_send : option exn;
  ws_t0 : Z;
  ws_ticks : list (Z * recv_outcome);
  ws_close : option exn }.

(** How a session ends: the method returns, raises, or the given iterations
    run out before the deadline was observed (the session is still going). *)
Inductive stream_end : Type :=
| Returned
| Raised (e : exn)
| Pending.

(** The subscribe control message. *)
Definition subscribe_msg (c : client) (epics : list json) : json :=
  JObj [("destination", JStr "marketData.subscribe");
        ("correlationId", JStr "1");
        ("cst", opt_str (cst c));
        ("securityToken", opt_str (sec c));
        ("payload", JObj [("epics", JArr (firstn 40 epics))])].

(** [msg["payload"]["epics"]] of a control message. *)
Definition msg_epics (m : json) : option (list json) :=
  match m with
  | JObj d =>
      match dict_get d "payload" with
      | Some (JObj p) => match dict_get p "epics" with Some (JArr xs) => Some xs | _ => None end
      | _ => None
      end
  | _ => None
  end.

(** [data.get("destination") == "quote"] for a dict [data]. *)
Definition is_quote_dest (d : list (string * json)) : bool :=
  match dict_get d "destination" with
  | Some (JStr s) => String.eqb s "quote"
  | _ => false
  end.

(** [try: ws.close() except: pass] *)
Definition close_best_effort (r : option exn) : unit :=
  match r with Some _ => tt | None => tt end.

Section Stream.

Variable json_loads : string -> option json.

(** The [while time.time() < t_end] loop.  [on_quote p] is [None] when the
    consumer returns and [Some e] when it raises [e]. *)
Fixpoint recv_loop (on_quote : json -> option exn) (t_end : Z)
    (ticks : list (Z * recv_outcome)) : stream_end * list ws_event :=
  match ticks with
  | [] => (Pending, [])
  | (now, r) :: rest =>
      if (now <? t_end)%Z then
        match r with
        | RecvExn e => (Raised e, [])
        | RecvMsg raw =>
            match raw with
            | None => recv_loop on_quote t_end rest
            | Some txt =>
                if String.eqb txt "" then recv_loop on_quote t_end rest
                else
                  match json_loads txt with
                  | None => (Raised JSONDecodeError, [])
                  | Some (JObj d) =>
                      if is_quote_dest d && dict_has d "payload" then
                        let p := match dict_get d "payload" with Some p => p | None => JNull end in
                        match on_quote p with
                        | Some e => (Raised e, [Consume p])
                        | None =>
                            let '(o, evs) := recv_loop on_quote t_end rest in
                            (o, Consume p :: evs)
                        end
                      else recv_loop on_quote t_end rest
                  | Some _ => (Raised (AttributeError "get"), [])
                  end
            end
        end
      else (Returned, [])
  end.

(** [CapitalClient.stream_quotes(epics, on_quote, run_seconds)] *)
Definition stream_quotes (c : client) (epics : list json)
    (on_quote : json -> option exn) (run_seconds : Z) (env : ws_env)
    : stream_end * list ws_event :=
  match ws_connect env with
  | Some e => (Raised e, [])
  | None =>
      let msg := subscribe_msg c epics in
      let '(o, evs) :=
        match ws_send env with
        | Some e => (Raised e, [WsSend msg])
        | None =>
            let '(o, evs) := recv_loop on_quote (ws_t0 env + run_seconds) (ws_ticks env) in
            (o, WsSend msg :: evs)
        end in
      match o with
      | Pending => (Pending, evs)
      | _ => let _ := close_best_effort (ws_close env) in (o, (evs ++ [WsClose])%list)
      end
  end.

End Stream.

(** ** Module level: [BASE_URL]

    [os.getenv("CAPITAL_BASE_URL", default).rstrip("/")]; [None] is an
    unset variable (a set but empty one is the empty string). *)
Definition default_base_url : string := "https://demo-api-capital.backend-capital.com".

Fixpoint drop_slashes (cs : list ascii) : list ascii :=
  match cs with
  | c :: cs' => if Ascii.eqb c "/"%char then drop_slashes cs' else cs
  | [] => []
  end.

(** [s.rstrip("/")] *)
Definition rstrip_slash (s : string) : string :=
  string_of_list_ascii (rev (drop_slashes (rev (list_ascii_of_string s)))).

Definition base_url_of (env_value : option string) : string :=
  rstrip_slash (match env_value with Some v => v | None => default_base_url end).

(** ** The script ([if __name__ == "__main__":])

    [API_KEY], [IDENTIFIER] and [API_PASS] are taken to be set (strings);
    the printing is not modelled, and [on_quote] (a [print]) never
    raises.  Exceptions of the script that are not raised by the client:
    [IndexError] and [KeyError] of the subscript [[0]]. *)
Inductive main_exn : Type :=
| PyErr (e : exn)
| IndexError
| KeyError (k : json).

(** [v[0]] on a decoded JSON value. *)
Definition py_index0 (v : json) : main_exn + json :=
  match v with
  | JArr (x :: _) => inr x
  | JArr [] => inl IndexError
  | JStr (String c _) => inr (JStr (String c EmptyString))
  | JStr EmptyString => inl IndexError
  | JObj _ => inl (KeyError (JInt 0))   (* JSON object keys are strings *)
  | _ => inl (PyErr TypeError)          (* not subscriptable *)
  end.

(** [markets.get("markets", [{}])[0].get("epic")] *)
Definition first_epic (markets : json) : main_exn + json :=
  match markets with
  | JObj d =>
      let v := match dict_get d "markets" with Some v => v | None => JArr [JObj []] end in
      match py_index0 v with
      | inl e => inl e
      | inr (JObj m) => inr (match dict_get m "epic" with Some x => x | None => JNull end)
      | inr _ => inl (PyErr (AttributeError "get"))
      end
  | _ => inl (PyErr (AttributeError "get"))
  end.

(** Truthiness of a Python value ([if first_epic:]). *)
Definition truthy (v : json) : bool :=
  match v with
  | JNull => false
  | JBool b => b
  | JInt n => negb (n =? 0)%Z
  | JFloat q => negb (Qeq_bool q 0)
  | JStr s => negb (String.eqb s "")
  | JArr xs => match xs with [] => false | _ => true end
  | JObj d => match d with [] => false | _ => true end
  end.

(** The keyword arguments of the demo order. *)
Definition main_risk : list (string * json) :=
  [("profitDistance", JInt 10); ("stopDistance", JInt 10); ("guaranteedStop", JBool false)].

(** [def on_quote(q): print(q)] *)
Definition print_quote (q : json) : option exn := None.

Inductive main_end : Type :=
| MainDone
| MainRaised (e : main_exn)
| MainPending.

(** The script: the REST requests it sends (from the oracle [rp]) and
    what it does on the socket (in the session [env]). *)
Definition main_script (loads : string -> option json) (env_base : option string)
    (key ident pass : string) (rp : list (option response)) (env : ws_env)
    : main_end * list request * list ws_event :=
  let cap := new_client (base_url_of env_base) key ident pass in
  match login (mkWorld cap [] rp) with
  | (Err e, w1) => (MainRaised (PyErr e), sent w1, [])
  | (Ok _, w1) =>
      match ping loads w1 with
      | (Err e, w2) => (MainRaised (PyErr e), sent w2, [])
      | (Ok _, w2) =>
          match search_markets loads "BTC" [] w2 with
          | (Err e, w3) => (MainRaised (PyErr e), sent w3, [])
          | (Ok markets, w3) =>
              match first_epic markets with
              | inl e => (MainRaised e, sent w3, [])
              | inr fe =>
                  match stream_quotes loads (cl w3) [fe] print_quote 20 env with
                  | (Raised e, evs) => (MainRaised (PyErr e), sent w3, evs)
                  | (Pending, evs) => (MainPending, sent w3, evs)
                  | (Returned, evs) =>
                      if truthy fe then
                        match place_market_order loads fe (JStr "BUY") (JInt 1) main_risk w3 with
                        | (Err e, w4) => (MainRaised (PyErr e), sent w4, evs)
                        | (Ok _, w4) => (MainDone, sent w4, evs)
                        end
                      else (MainDone, sent w3, evs)
                  end
              end
          end
      end
  end.

(** ** Concrete inputs *)

Local Open Scope Z_scope.
Local Open Scope string_scope.

Definition demo_client : client := new_client "https://demo" "KEY" "me" "pw".

Definition authed_client (t s : string) : client :=
  set_tokens demo_client (Some t) (Some s).

(** The two inbound frames of the spec's streaming scenario. *)
Definition quote_frame : string :=
  jtext "{'destination':'quote','payload':{'epic':'X','bid':1,'ofr':2}}".
Definition ping_frame : string := jtext "{'destination':'ping'}".

Definition quote_payload : json :=
  JObj [("epic", JStr "X"); ("bid", JInt 1); ("ofr", JInt 2)].

Definition no_consumer_error (_ : json) : option exn := None.

(** ** Lemmas on the receive loop and the session *)

Lemma recv_loop_app : forall loads f t_end pre rest evs,
  recv_loop loads f t_end pre = (Pending, evs) ->
  recv_loop loads f t_end (pre ++ rest) =
    (fst (recv_loop loads f t_end rest), evs ++ snd (recv_loop loads f t_end rest))%list.
Proof.
  induction pre as [|[now r] pre IH]; intros rest evs H.
  - simpl in H. inversion H; subst. simpl. destruct (recv_loop loads f t_end rest); reflexivity.
  - simpl in H |- *.
    destruct (now <? t_end)%Z; [|discriminate].
    destruct r as [[txt|]|e]; [|now apply IH|discriminate].
    destruct (String.eqb txt ""); [now apply IH|].
    destruct (loads txt) as [[| | | | | |d]|]; try discriminate.
    destruct (is_quote_dest d && dict_has d "payload"); [|now apply IH].
    destruct (f _); [discriminate|].
    destruct (recv_loop loads f t_end pre) as [o evs0] eqn:E.
    inversion H; subst.
    rewrite (IH rest evs0 eq_refl). reflexivity.
Qed.

Lemma subscribe_msg_firstn : forall c epics,
  subscribe_msg c (firstn 40 epics) = subscribe_msg c epics.
Proof.
  intros c epics. unfold subscribe_msg. rewrite firstn_firstn. reflexivity.
Qed.

Lemma stream_quotes_events_head : forall loads c epics f rs env,
  ws_connect env = None ->
  exists evs, snd (stream_quotes loads c epics f rs env) = WsSend (subscribe_msg c epics) :: evs.
Proof.
  intros loads c epics f rs env H. unfold stream_quotes. rewrite H.
  destruct (ws_send env).
  - eexists. reflexivity.
  - destruct (recv_loop loads f (ws_t0 env + rs) (ws_ticks env)) as [o evs].
    destruct o; eexists; reflexivity.
Qed.

(** ** Streaming claims *)

(** C5: the subscribe message is the first thing sent on the socket and
    carries [epics[:40]], i.e. the first [min(len(epics), 40)] identifiers
    in their original order; a longer list is truncated: the whole session
    behaves exactly as if only those 40 had been passed. *)
Theorem subscribe_carries_first_40 : forall loads c epics f rs env,
  ws_connect env = None ->
  (exists m evs,
     snd (stream_quotes loads c epics f rs env) = WsSend m :: evs /\
     msg_epics m = Some (firstn 40 epics) /\
     List.length (firstn 40 epics) = Nat.min 40 (List.length epics) /\
     (firstn 40 epics ++ skipn 40 epics)%list = epics) /\
  stream_quotes loads c (firstn 40 epics) f rs env = stream_quotes loads c epics f rs env.
Proof.
  intros loads c epics f rs env H. split.
  - destruct (stream_quotes_events_head loads c epics f rs env H) as [evs Hevs].
    exists (subscribe_msg c epics), evs.
    split; [exact Hevs|]. split; [reflexivity|].
    split; [apply length_firstn | apply firstn_skipn].
  - unfold stream_quotes. rewrite subscribe_msg_firstn. reflexivity.
Qed.

Definition epics45 : list json := map (fun n => JInt (Z.of_nat n)) (seq 0 45).

Definition env_quiet : ws_env :=
  mkWsEnv None None 0 [(1, RecvMsg (Some quote_frame)); (31, RecvMsg None)] (Some WebSocketError).

Lemma subscribe_carries_first_40_witness :
  ws_connect env_quiet = None /\
  msg_epics (subscribe_msg demo_client epics45) = Some (map (fun n => JInt (Z.of_nat n)) (seq 0 40)) /\
  ((exists m evs,
     snd (stream_quotes json_loads_std demo_client epics45 no_consumer_error 30 env_quiet) = WsSend m :: evs /\
     msg_epics m = Some (firstn 40 epics45) /\
     List.length (firstn 40 epics45) = Nat.min 40 (List.length epics45) /\
     (firstn 40 epics45 ++ skipn 40 epics45)%list = epics45) /\
   stream_quotes json_loads_std demo_client (firstn 40 epics45) no_consumer_error 30 env_quiet =
   stream_quotes json_loads_std demo_client epics45 no_consumer_error 30 env_quiet).
Proof.
  split; [reflexivity|]. split; [vm_compute; reflexivity|].
  apply (subscribe_carries_first_40 json_loads_std demo_client epics45 no_consumer_error 30 env_quiet).
  reflexivity.
Defined.

(** C10: [stream_quotes] checks no credentials: on a client that never
    logged in it connects and sends a subscribe message whose [cst] and
    [securityToken] are null, and the session runs exactly as it would for
    any other client; [_auth_headers], used by every REST call, refuses
    the same client. *)
Theorem stream_needs_no_login : forall loads b k i p epics f rs env c',
  ws_connect env = None ->
  (exists evs,
     snd (stream_quotes loads (new_client b k i p) epics f rs env) =
     WsSend (JObj [("destination", JStr "marketData.subscribe");
                   ("correlationId", JStr "1");
                   ("cst", JNull); ("securityToken", JNull);
                   ("payload", JObj [("epics", JArr (firstn 40 epics))])]) :: evs) /\
  fst (stream_quotes loads (new_client b k i p) epics f rs env) =
  fst (stream_quotes loads c' epics f rs env) /\
  (forall sn rp,
     auth_headers (mkWorld (new_client b k i p) sn rp) =
     (Err (RuntimeError "Not authenticated; call login() first."), mkWorld (new_client b k i p) sn rp)).
Proof.
  intros loads b k i p epics f rs env c' H. split; [|split].
  - exact (stream_quotes_events_head loads (new_client b k i p) epics f rs env H).
  - unfold stream_quotes. rewrite H.
    destruct (ws_send env); [reflexivity|].
    destruct (recv_loop loads f (ws_t0 env + rs) (ws_ticks env)) as [[| |] evs]; reflexivity.
  - intros sn rp. reflexivity.
Qed.

Lemma stream_needs_no_login_witness :
  ws_connect env_quiet = None /\
  ((exists evs,
     snd (stream_quotes json_loads_std demo_client [JStr "X"] no_consumer_error 30 env_quiet) =
     WsSend (JObj [("destination", JStr "marketData.subscribe");
                   ("correlationId", JStr "1");
                   ("cst", JNull); ("securityToken", JNull);
                   ("payload", JObj [("epics", JArr (firstn 40 [JStr "X"]))])]) :: evs) /\
   fst (stream_quotes json_loads_std demo_client [JStr "X"] no_consumer_error 30 env_quiet) =
   fst (stream_quotes json_loads_std (authed_client "abc" "xyz") [JStr "X"] no_consumer_error 30 env_quiet) /\
   (forall sn rp,
     auth_headers (mkWorld demo_client sn rp) =
     (Err (RuntimeError "Not authenticated; call login() first."), mkWorld demo_client sn rp))).
Proof.
  split; [reflexivity|].
  exact (stream_needs_no_login json_loads_std "https://demo" "KEY" "me" "pw" [JStr "X"]
           no_consumer_error 30 env_quiet (authed_client "abc" "xyz") eq_refl).
Defined.

(** C9: whenever the receive loop is left (deadline reached, or an error
    raised by [recv], by [json.loads], by the consumer or by the subscribe
    send), [ws.close()] is attempted as the last socket action, the session
    ends exactly as its body ended, and the outcome of [ws.close()] (success
    or any exception) changes nothing. *)
Theorem stream_close_best_effort : forall loads c epics f rs env,
  ws_connect env = None ->
  fst (stream_quotes loads c epics f rs env) <> Pending ->
  (exists evs, snd (stream_quotes loads c epics f rs env) = (evs ++ [WsClose])%list) /\
  (ws_send env = None ->
   fst (stream_quotes loads c epics f rs env) = fst (recv_loop loads f (ws_t0 env + rs) (ws_ticks env))) /\
  (forall r',
     stream_quotes loads c epics f rs
       (mkWsEnv (ws_connect env) (ws_send env) (ws_t0 env) (ws_ticks env) r') =
     stream_quotes loads c epics f rs env).
Proof.
  intros loads c epics f rs env Hc Hp. unfold stream_quotes in *. rewrite Hc in *.
  split; [|split].
  - destruct (ws_send env).
    + eexists. reflexivity.
    + destruct (recv_loop loads f (ws_t0 env + rs) (ws_ticks env)) as [[| |] evs];
        simpl in *; [exists (WsSend (subscribe_msg c epics) :: evs); reflexivity
                   | exists (WsSend (subscribe_msg c epics) :: evs); reflexivity | congruence].
  - intros Hs. rewrite Hs.
    destruct (recv_loop loads f (ws_t0 env + rs) (ws_ticks env)) as [[| |] evs]; reflexivity.
  - intros r'. reflexivity.
Qed.

Lemma stream_close_best_effort_witness :
  ws_connect env_quiet = None /\
  fst (stream_quotes json_loads_std demo_client [JStr "X"] no_consumer_error 30 env_quiet) <> Pending /\
  ((exists evs, snd (stream_quotes json_loads_std demo_client [JStr "X"] no_consumer_error 30 env_quiet)
                = (evs ++ [WsClose])%list) /\
   (ws_send env_quiet = None ->
    fst (stream_quotes json_loads_std demo_client [JStr "X"] no_consumer_error 30 env_quiet) =
    fst (recv_loop json_loads_std no_consumer_error (ws_t0 env_quiet + 30) (ws_ticks env_quiet))) /\
   (forall r',
     stream_quotes json_loads_std demo_client [JStr "X"] no_consumer_error 30
       (mkWsEnv (ws_connect env_quiet) (ws_send env_quiet) (ws_t0 env_quiet) (ws_ticks env_quiet) r') =
     stream_quotes json_loads_std demo_client [JStr "X"] no_consumer_error 30 env_quiet)).
Proof.
  assert (H1 : ws_connect env_quiet = None) by reflexivity.
  assert (H2 : fst (stream_quotes json_loads_std demo_client [JStr "X"] no_consumer_error 30 env_quiet)
               <> Pending) by (vm_compute; discriminate).
  exact (conj H1 (conj H2 (stream_close_best_effort json_loads_std demo_client [JStr "X"]
                             no_consumer_error 30 env_quiet H1 H2))).
Defined.

Definition env_malformed : ws_env :=
  mkWsEnv None None 0 [(1, RecvMsg (Some "not json")); (2, RecvMsg (Some quote_frame))] None.

(** C3 (as stated: an unparseable frame is skipped and the loop goes on
    with the next frames) fails: after the frame ["not json"] the session
    raises [JSONDecodeError] and the quote that follows is never
    delivered. *)
Lemma malformed_frame_ends_session :
  stream_quotes json_loads_std demo_client [JStr "X"] no_consumer_error 30 env_malformed =
  (Raised JSONDecodeError, [WsSend (subscribe_msg demo_client [JStr "X"]); WsClose]).
Proof. vm_compute. reflexivity. Qed.

(** C3 (amended): when the loop, still before its deadline, reads a
    non-empty frame that [json.loads] cannot decode, the session ends with
    [JSONDecodeError]: the frames after it are not processed, the
    connection is closed, and the error propagates to the caller. *)
Theorem malformed_frame_aborts : forall loads c epics f rs env pre now txt rest evs,
  ws_connect env = None ->
  ws_send env = None ->
  ws_ticks env = (pre ++ (now, RecvMsg (Some txt)) :: rest)%list ->
  recv_loop loads f (ws_t0 env + rs) pre = (Pending, evs) ->
  now < ws_t0 env + rs ->
  txt <> "" ->
  loads txt = None ->
  stream_quotes loads c epics f rs env =
  (Raised JSONDecodeError, (WsSend (subscribe_msg c epics) :: evs ++ [WsClose])%list).
Proof.
  intros loads c epics f rs env pre now txt rest evs Hc Hs Ht Hpre Hnow Htxt Hl.
  unfold stream_quotes. rewrite Hc, Hs, Ht.
  rewrite (recv_loop_app loads f (ws_t0 env + rs) pre _ evs Hpre).
  simpl. apply Z.ltb_lt in Hnow. rewrite Hnow.
  apply String.eqb_neq in Htxt. rewrite Htxt, Hl. simpl.
  rewrite app_nil_r. reflexivity.
Qed.

Lemma malformed_frame_aborts_witness :
  ws_connect env_malformed = None /\
  ws_send env_malformed = None /\
  ws_ticks env_malformed = ([] ++ (1, RecvMsg (Some "not json")) :: [(2, RecvMsg (Some quote_frame))])%list /\
  recv_loop json_loads_std no_consumer_error (ws_t0 env_malformed + 30) [] = (Pending, []) /\
  1 < ws_t0 env_malformed + 30 /\
  "not json" <> "" /\
  json_loads_std "not json" = None /\
  stream_quotes json_loads_std demo_client [JStr "X"] no_consumer_error 30 env_malformed =
  (Raised JSONDecodeError, (WsSend (subscribe_msg demo_client [JStr "X"]) :: [] ++ [WsClose])%list).
Proof.
  assert (H1 : ws_connect env_malformed = None) by reflexivity.
  assert (H2 : ws_send env_malformed = None) by reflexivity.
  assert (H3 : ws_ticks env_malformed =
               ([] ++ (1, RecvMsg (Some "not json")) :: [(2, RecvMsg (Some quote_frame))])%list)
    by reflexivity.
  assert (H4 : recv_loop json_loads_std no_consumer_error (ws_t0 env_malformed + 30) [] = (Pending, []))
    by reflexivity.
  assert (H5 : 1 < ws_t0 env_malformed + 30) by (simpl; lia).
  assert (H6 : "not json" <> "") by discriminate.
  assert (H7 : json_loads_std "not json" = None) by (vm_compute; reflexivity).
  repeat (split; [assumption|]).
  exact (malformed_frame_aborts json_loads_std demo_client [JStr "X"] no_consumer_error 30
           env_malformed [] 1 "not json" [(2, RecvMsg (Some quote_frame))] [] H1 H2 H3 H4 H5 H6 H7).
Defined.

Definition env_array_frame : ws_env :=
  mkWsEnv None None 0 [(1, RecvMsg (Some "[1]")); (2, RecvMsg (Some quote_frame))] None.

(** C8 (as stated: every parsed frame that is not a quote is ignored)
    fails: the frame [[1]] decodes to a list, which has no [.get]; the
    session raises [AttributeError] and the following quote is never
    delivered. *)
Lemma non_object_frame_raises :
  stream_quotes json_loads_std demo_client [JStr "X"] no_consumer_error 30 env_array_frame =
  (Raised (AttributeError "get"), [WsSend (subscribe_msg demo_client [JStr "X"]); WsClose]).
Proof. vm_compute. reflexivity. Qed.

(** C8 (amended): one iteration of the receive loop before the deadline.
    An empty read ([None] or [""]) is skipped.  A frame decoding to a dict
    whose ["destination"] is ["quote"] and which has a ["payload"] key calls
    the consumer synchronously with exactly that payload (the loop goes on
    when it returns, and ends with its exception when it raises); any other
    dict is ignored; a frame decoding to a non-dict JSON value raises
    [AttributeError] and ends the loop.  On the spec's frames the quote
    frame reaches the consumer with [{"epic":"X","bid":1,"ofr":2}] and the
    ping frame invokes nothing. *)
Theorem recv_loop_dispatch : forall loads f t_end now rest,
  now < t_end ->
  recv_loop loads f t_end ((now, RecvMsg None) :: rest) = recv_loop loads f t_end rest /\
  recv_loop loads f t_end ((now, RecvMsg (Some "")) :: rest) = recv_loop loads f t_end rest /\
  (forall txt d p,
     txt <> "" -> loads txt = Some (JObj d) ->
     is_quote_dest d = true -> dict_get d "payload" = Some p ->
     (f p = None ->
      recv_loop loads f t_end ((now, RecvMsg (Some txt)) :: rest) =
      (fst (recv_loop loads f t_end rest), Consume p :: snd (recv_loop loads f t_end rest))) /\
     (forall e, f p = Some e ->
      recv_loop loads f t_end ((now, RecvMsg (Some txt)) :: rest) = (Raised e, [Consume p]))) /\
  (forall txt d,
     txt <> "" -> loads txt = Some (JObj d) ->
     is_quote_dest d = false \/ dict_get d "payload" = None ->
     recv_loop loads f t_end ((now, RecvMsg (Some txt)) :: rest) = recv_loop loads f t_end rest) /\
  (forall txt v,
     txt <> "" -> loads txt = Some v -> (forall d, v <> JObj d) ->
     recv_loop loads f t_end ((now, RecvMsg (Some txt)) :: rest) = (Raised (AttributeError "get"), [])) /\
  recv_loop json_loads_std no_consumer_error 30 [(1, RecvMsg (Some quote_frame)); (2, RecvMsg (Some ping_frame))] =
  (Pending, [Consume quote_payload]).
Proof.
  intros loads f t_end now rest Hnow.
  apply Z.ltb_lt in Hnow.
  split; [simpl; rewrite Hnow; reflexivity|].
  split; [simpl; rewrite Hnow; reflexivity|].
  split; [|split; [|split]].
  - intros txt d p Htxt Hl Hq Hp. apply String.eqb_neq in Htxt.
    assert (Hh : dict_has d "payload" = true) by (unfold dict_has; rewrite Hp; reflexivity).
    split.
    + intros Hf. simpl. rewrite Hnow, Htxt, Hl, Hq, Hh, Hp, Hf. simpl.
      destruct (recv_loop loads f t_end rest); reflexivity.
    + intros e Hf. simpl. rewrite Hnow, Htxt, Hl, Hq, Hh, Hp, Hf. reflexivity.
  - intros txt d Htxt Hl Hor. apply String.eqb_neq in Htxt.
    simpl. rewrite Hnow, Htxt, Hl.
    destruct Hor as [Hq | Hp].
    + rewrite Hq. reflexivity.
    + unfold dict_has. rewrite Hp, andb_false_r. reflexivity.
  - intros txt v Htxt Hl Hv. apply String.eqb_neq in Htxt.
    simpl. rewrite Hnow, Htxt, Hl.
    destruct v; try reflexivity. exfalso. exact (Hv kvs eq_refl).
  - vm_compute. reflexivity.
Qed.

Definition quote_dict : list (string * json) :=
  [("destination", JStr "quote"); ("payload", quote_payload)].

Lemma recv_loop_dispatch_witness :
  (1 < 30) /\
  quote_frame <> "" /\
  json_loads_std quote_frame = Some (JObj quote_dict) /\
  is_quote_dest quote_dict = true /\
  dict_get quote_dict "payload" = Some quote_payload /\
  no_consumer_error quote_payload = None /\
  recv_loop json_loads_std no_consumer_error 30 [(1, RecvMsg (Some quote_frame))] =
  (fst (recv_loop json_loads_std no_consumer_error 30 []),
   Consume quote_payload :: snd (recv_loop json_loads_std no_consumer_error 30 [])).
Proof.
  assert (H : 1 < 30) by lia.
  assert (H1 : quote_frame <> "") by (vm_compute; discriminate).
  assert (H2 : json_loads_std quote_frame = Some (JObj quote_dict)) by (vm_compute; reflexivity).
  assert (H3 : is_quote_dest quote_dict = true) by reflexivity.
  assert (H4 : dict_get quote_dict "payload" = Some quote_payload) by reflexivity.
  assert (H5 : no_consumer_error quote_payload = None) by reflexivity.
  repeat (split; [assumption|]).
  destruct (recv_loop_dispatch json_loads_std no_consumer_error 30 1 [] H) as [_ [_ [Hq _]]].
  exact (proj1 (Hq quote_frame quote_dict quote_payload H1 H2 H3 H4) H5).
Defined.

(** ** REST: helper definitions and lemmas *)

(** [self.cst and self.sec] is truthy. *)
Definition authed (c : client) : bool := truthy_str (cst c) && truthy_str (sec c).

Definition not_auth : exn := RuntimeError "Not authenticated; call login() first.".

Definition missing_tokens : exn :=
  RuntimeError "Login ok but CST / X-SECURITY-TOKEN missing in headers.".

(** [raise_for_status] lets the response through. *)
Definition status_ok (s : Z) : bool := negb ((400 <=? s)%Z && (s <? 600)%Z).

Ltac run_m :=
  unfold bind, ret, raise, get_client, put_client, of_option, of_result,
         http, raise_for_status, resp_json, py_get, py_upper, set_tokens in *;
  cbn beta iota zeta delta [cl sent replies base_url api_key identifier api_pass cst sec
                            status_code resp_headers resp_text] in *.

Lemma auth_headers_fail : forall w,
  authed (cl w) = false -> auth_headers w = (Err not_auth, w).
Proof.
  intros [[b k i p [t|] [s|]] sn rp] H; unfold auth_headers; run_m; try reflexivity.
  unfold authed in H. simpl in H. simpl. rewrite H. reflexivity.
Qed.

Lemma auth_headers_ok : forall w t s,
  cst (cl w) = Some t -> sec (cl w) = Some s -> t <> "" -> s <> "" ->
  auth_headers w = (Ok [("CST", t); ("X-SECURITY-TOKEN", s)], w).
Proof.
  intros [[b k i p ct cs] sn rp] t s Ht Hs Ht' Hs'. simpl in Ht, Hs. subst.
  apply String.eqb_neq in Ht', Hs'.
  unfold auth_headers; run_m. simpl. rewrite Ht', Hs'. reflexivity.
Qed.

Lemma ping_unauth : forall loads w,
  authed (cl w) = false -> ping loads w = (Err not_auth, w).
Proof.
  intros loads w H. pose proof (auth_headers_fail w H) as Ha.
  unfold ping. run_m. rewrite Ha. reflexivity.
Qed.

Lemma search_unauth : forall loads w term epics,
  authed (cl w) = false -> search_markets loads term epics w = (Err not_auth, w).
Proof.
  intros loads w term epics H. pose proof (auth_headers_fail w H) as Ha.
  unfold search_markets. run_m. rewrite Ha. reflexivity.
Qed.

Lemma place_unauth : forall loads w epic dir size v risk,
  authed (cl w) = false -> py_float size = Ok v ->
  place_market_order loads epic (JStr dir) size risk w = (Err not_auth, w).
Proof.
  intros loads w epic dir size v risk H Hv. pose proof (auth_headers_fail w H) as Ha.
  unfold place_market_order. run_m. rewrite Hv. run_m. rewrite Ha. reflexivity.
Qed.

(** ** REST claims *)

(** C4: with no usable credentials ([self.cst] or [self.sec] missing or
    empty), [ping], [search_markets] and [place_market_order] raise the
    "Not authenticated" [RuntimeError] and leave the world untouched: no
    request is sent and no reply consumed.  For [place_market_order] the
    direction is a str and the size converts with [float()], as the
    spec's order request requires (the payload is built before the
    credential check). *)
Theorem unauthenticated_calls_fail : forall loads w,
  authed (cl w) = false ->
  ping loads w = (Err not_auth, w) /\
  (forall term epics, search_markets loads term epics w = (Err not_auth, w)) /\
  (forall epic dir size v risk,
     py_float size = Ok v ->
     place_market_order loads epic (JStr dir) size risk w = (Err not_auth, w)).
Proof.
  intros loads w H. split; [|split].
  - exact (ping_unauth loads w H).
  - intros term epics. exact (search_unauth loads w term epics H).
  - intros epic dir size v risk Hv. exact (place_unauth loads w epic dir size v risk H Hv).
Qed.

Definition w_fresh : world := mkWorld demo_client [] [].

Lemma unauthenticated_calls_fail_witness :
  authed (cl w_fresh) = false /\
  py_float (JInt 1) = Ok (JFloat 1) /\
  ping json_loads_std w_fresh = (Err not_auth, w_fresh) /\
  place_market_order json_loads_std (JStr "BTCUSD") (JStr "buy") (JInt 1) [] w_fresh =
  (Err not_auth, w_fresh).
Proof.
  assert (H : authed (cl w_fresh) = false) by reflexivity.
  assert (Hv : py_float (JInt 1) = Ok (JFloat 1)) by reflexivity.
  destruct (unauthenticated_calls_fail json_loads_std w_fresh H) as [Hp [_ Hpl]].
  exact (conj H (conj Hv (conj Hp (Hpl (JStr "BTCUSD") "buy" (JInt 1) (JFloat 1) [] Hv)))).
Defined.

(** The request [login] sends. *)
Definition login_request (c : client) : request :=
  mkRequest "POST" (base_url c ++ "/api/v1/session")
    [("X-CAP-API-KEY", api_key c); ("Content-Type", "application/json")] []
    (Some (JObj [("identifier", JStr (identifier c)); ("password", JStr (api_pass c));
                 ("encryptedPassword", JBool false)])) 20.

(** [login] when the venue answers with a non-error status: both header
    values are stored, then checked. *)
Lemma login_reply : forall c sn r rest,
  status_ok (status_code r) = true ->
  login (mkWorld c sn (Some r :: rest)) =
  (if truthy_str (header_get (resp_headers r) "CST") &&
      truthy_str (header_get (resp_headers r) "X-SECURITY-TOKEN")
   then Ok true else Err missing_tokens,
   mkWorld (set_tokens c (header_get (resp_headers r) "CST")
                         (header_get (resp_headers r) "X-SECURITY-TOKEN"))
           (sn ++ [login_request c])%list rest).
Proof.
  intros c sn r rest Hs. unfold status_ok in Hs. apply negb_true_iff in Hs.
  unfold login. run_m. rewrite Hs. cbn beta iota zeta.
  destruct (truthy_str (header_get (resp_headers r) "CST"));
    destruct (truthy_str (header_get (resp_headers r) "X-SECURITY-TOKEN")); reflexivity.
Qed.

Definition w_partial : world :=
  mkWorld demo_client [] [Some (mkResponse 200 [("CST", "abc")] "{}")].

(** C1 (as stated: a failed login leaves the credential store empty, no
    partial token retained) fails: a 200 reply carrying only [CST] makes
    [login] raise, yet [self.cst] now holds ["abc"] where it held [None]. *)
Lemma login_keeps_partial_token :
  fst (login w_partial) = Err missing_tokens /\
  cst (cl w_partial) = None /\
  cst (cl (snd (login w_partial))) = Some "abc" /\
  sec (cl (snd (login w_partial))) = None.
Proof. vm_compute. repeat split. Qed.

(** C1 (amended): when the login reply passes [raise_for_status] but its
    [CST] or [X-SECURITY-TOKEN] header is missing or empty, [login] raises
    the "Login ok but ... missing" [RuntimeError]; the client then holds
    exactly the two header values as received (possibly one usable token,
    whatever it held before is overwritten), the store is unauthenticated,
    and a following [ping] fails with "Not authenticated" without network
    access. *)
Theorem login_missing_token : forall w r rest,
  replies w = Some r :: rest ->
  status_ok (status_code r) = true ->
  truthy_str (header_get (resp_headers r) "CST") &&
  truthy_str (header_get (resp_headers r) "X-SECURITY-TOKEN") = false ->
  fst (login w) = Err missing_tokens /\
  cst (cl (snd (login w))) = header_get (resp_headers r) "CST" /\
  sec (cl (snd (login w))) = header_get (resp_headers r) "X-SECURITY-TOKEN" /\
  authed (cl (snd (login w))) = false /\
  (forall loads, ping loads (snd (login w)) = (Err not_auth, snd (login w))).
Proof.
  intros [c sn rp] r rest Hr Hs Hm. simpl in Hr. subst rp.
  rewrite (login_reply c sn r rest Hs), Hm. simpl.
  assert (Ha : authed (set_tokens c (header_get (resp_headers r) "CST")
                                    (header_get (resp_headers r) "X-SECURITY-TOKEN")) = false)
    by exact Hm.
  split; [reflexivity|]. split; [reflexivity|]. split; [reflexivity|].
  split; [exact Ha|].
  intros loads.
  apply ping_unauth. exact Ha.
Qed.

Lemma login_missing_token_witness :
  replies w_partial = [Some (mkResponse 200 [("CST", "abc")] "{}")] /\
  status_ok (status_code (mkResponse 200 [("CST", "abc")] "{}")) = true /\
  truthy_str (header_get (resp_headers (mkResponse 200 [("CST", "abc")] "{}")) "CST") &&
  truthy_str (header_get (resp_headers (mkResponse 200 [("CST", "abc")] "{}")) "X-SECURITY-TOKEN") = false /\
  fst (login w_partial) = Err missing_tokens.
Proof.
  assert (H1 : replies w_partial = [Some (mkResponse 200 [("CST", "abc")] "{}")]) by reflexivity.
  assert (H2 : status_ok (status_code (mkResponse 200 [("CST", "abc")] "{}")) = true) by reflexivity.
  assert (H3 : truthy_str (header_get (resp_headers (mkResponse 200 [("CST", "abc")] "{}")) "CST") &&
               truthy_str (header_get (resp_headers (mkResponse 200 [("CST", "abc")] "{}"))
                                      "X-SECURITY-TOKEN") = false) by reflexivity.
  split; [exact H1|]. split; [exact H2|]. split; [exact H3|].
  exact (proj1 (login_missing_token w_partial _ [] H1 H2 H3)).
Defined.

(** ** Authenticated calls keep the tokens and send them *)

(** Request [q] sends [t] and [s] as its [CST] and [X-SECURITY-TOKEN]
    headers. *)
Definition carries (t s : string) (q : request) : Prop :=
  dict_get (req_headers q) "CST" = Some t /\
  dict_get (req_headers q) "X-SECURITY-TOKEN" = Some s.

Section KeepTokens.

Variables t s : string.
Hypothesis t_nonempty : t <> "".
Hypothesis s_nonempty : s <> "".

(** Running [m] from a client holding [t] and [s] leaves the client as it
    is and only appends requests that carry [t] and [s]. *)
Definition keeps_tokens {A} (m : M A) : Prop :=
  forall w, cst (cl w) = Some t -> sec (cl w) = Some s ->
    cl (snd (m w)) = cl w /\
    exists new, sent (snd (m w)) = (sent w ++ new)%list /\ Forall (carries t s) new.

Lemma kt_pure : forall A (m : M A),
  (forall w, snd (m w) = w) -> keeps_tokens m.
Proof.
  intros A m H w _ _. rewrite H. split; [reflexivity|]. exists []. rewrite app_nil_r. auto.
Qed.

Lemma kt_ret : forall A (a : A), keeps_tokens (ret a).
Proof. intros. apply kt_pure. reflexivity. Qed.

Lemma kt_raise : forall A e, keeps_tokens (@raise A e).
Proof. intros. apply kt_pure. reflexivity. Qed.

Lemma kt_get_client : keeps_tokens get_client.
Proof. apply kt_pure. reflexivity. Qed.

Lemma kt_of_option : forall A (o : option A) e, keeps_tokens (of_option o e).
Proof. intros A [a|] e; apply kt_pure; reflexivity. Qed.

Lemma kt_of_result : forall A (r : result A), keeps_tokens (of_result r).
Proof. intros A [a|e]; apply kt_pure; reflexivity. Qed.

Lemma kt_raise_for_status : forall url r, keeps_tokens (raise_for_status url r).
Proof.
  intros url r. unfold raise_for_status.
  destruct (_ && _); [apply kt_raise | apply kt_ret].
Qed.

Lemma kt_py_get : forall v k, keeps_tokens (py_get v k).
Proof. intros [] k; unfold py_get; first [apply kt_ret | apply kt_raise]. Qed.

Lemma kt_resp_json : forall loads r, keeps_tokens (resp_json loads r).
Proof. intros. apply kt_of_option. Qed.

Lemma kt_bind : forall A B (m : M A) (k : A -> M B),
  keeps_tokens m -> (forall a, keeps_tokens (k a)) -> keeps_tokens (bind m k).
Proof.
  intros A B m k Hm Hk w Ht Hs. unfold bind.
  destruct (Hm w Ht Hs) as [Hc [new1 [Hsent1 Hf1]]].
  destruct (m w) as [[a|e] w1]; simpl in *.
  - rewrite <- Hc in Ht, Hs.
    destruct (Hk a w1 Ht Hs) as [Hc2 [new2 [Hsent2 Hf2]]].
    split; [congruence|].
    exists (new1 ++ new2)%list. rewrite Hsent2, Hsent1, app_assoc.
    split; [reflexivity|]. apply Forall_app; auto.
  - split; [exact Hc|]. exists new1. auto.
Qed.

Lemma kt_http : forall meth url h params body timeout,
  dict_get h "CST" = Some t -> dict_get h "X-SECURITY-TOKEN" = Some s ->
  keeps_tokens (http meth url h params body timeout).
Proof.
  intros meth url h params body timeout H1 H2 w _ _. unfold http.
  assert (Hq : Forall (carries t s) [mkRequest meth url h params body timeout])
    by (apply Forall_cons; [split; assumption | apply Forall_nil]).
  destruct (replies w) as [|[r|] rest]; simpl;
    (split; [reflexivity|]); exists [mkRequest meth url h params body timeout];
    (split; [reflexivity | exact Hq]).
Qed.

Lemma kt_bind_auth : forall B (k : list (string * string) -> M B),
  keeps_tokens (k [("CST", t); ("X-SECURITY-TOKEN", s)]) ->
  keeps_tokens (bind auth_headers k).
Proof.
  intros B k Hk w Ht Hs. unfold bind.
  rewrite (auth_headers_ok w t s Ht Hs t_nonempty s_nonempty).
  exact (Hk w Ht Hs).
Qed.

End KeepTokens.

Ltac kt_step Ht Hs :=
  cbv beta zeta;
  first
    [ apply kt_bind_auth; [exact Ht | exact Hs | ]
    | apply kt_bind; [ first [ apply kt_get_client | apply kt_of_option | apply kt_of_result
                             | apply kt_raise_for_status | apply kt_resp_json | apply kt_py_get
                             | apply kt_http; reflexivity ] | intro ]
    | apply kt_ret
    | apply kt_resp_json ].

Lemma ping_keeps : forall loads t s, t <> "" -> s <> "" -> keeps_tokens t s (ping loads).
Proof. intros loads t s Ht Hs. unfold ping. repeat kt_step Ht Hs. Qed.

Lemma search_keeps : forall loads t s term epics,
  t <> "" -> s <> "" -> keeps_tokens t s (search_markets loads term epics).
Proof. intros loads t s term epics Ht Hs. unfold search_markets. repeat kt_step Ht Hs. Qed.

Lemma place_keeps : forall loads t s epic dir size risk,
  t <> "" -> s <> "" -> keeps_tokens t s (place_market_order loads epic dir size risk).
Proof. intros loads t s epic dir size risk Ht Hs. unfold place_market_order. repeat kt_step Ht Hs. Qed.

(** A caller's use of the authenticated REST operations. *)
Inductive api_call : Type :=
| CallPing
| CallSearch (term : string) (epics : list string)
| CallPlace (epic direction size : json) (risk : list (string * json)).

(** Issue the calls one after the other; an exception raised by a call is
    caught by the caller, which goes on with the next one. *)
Fixpoint run_calls (loads : string -> option json) (ks : list api_call) (w : world) : world :=
  match ks with
  | [] => w
  | k :: ks' =>
      let w' := match k with
                | CallPing => snd (ping loads w)
                | CallSearch term epics => snd (search_markets loads term epics w)
                | CallPlace epic d sz risk => snd (place_market_order loads epic d sz risk w)
                end in
      run_calls loads ks' w'
  end.

Lemma run_calls_keep : forall loads t s ks w,
  t <> "" -> s <> "" -> cst (cl w) = Some t -> sec (cl w) = Some s ->
  cl (run_calls loads ks w) = cl w /\
  exists new, sent (run_calls loads ks w) = (sent w ++ new)%list /\ Forall (carries t s) new.
Proof.
  intros loads t s ks. induction ks as [|k ks IH]; intros w Ht Hs Hct Hcs.
  - split; [reflexivity|]. exists []. rewrite app_nil_r. auto.
  - assert (Hk : forall A (m : M A), keeps_tokens t s m ->
              cl (snd (m w)) = cl w /\
              exists new, sent (snd (m w)) = (sent w ++ new)%list /\ Forall (carries t s) new)
      by (intros A m Hm; exact (Hm w Hct Hcs)).
    assert (Hm : exists A (m : M A), keeps_tokens t s m /\
              run_calls loads (k :: ks) w = run_calls loads ks (snd (m w))).
    { destruct k as [|term epics|epic d sz risk].
      - exists json, (ping loads). split; [exact (ping_keeps loads t s Ht Hs) | reflexivity].
      - exists json, (search_markets loads term epics).
        split; [exact (search_keeps loads t s term epics Ht Hs) | reflexivity].
      - exists json, (place_market_order loads epic d sz risk).
        split; [exact (place_keeps loads t s epic d sz risk Ht Hs) | reflexivity]. }
    destruct Hm as [A [m [Hkm Heq]]]. rewrite Heq.
    destruct (Hk A m Hkm) as [Hc1 [new1 [Hs1 Hf1]]].
    rewrite <- Hc1 in Hct, Hcs.
    destruct (IH _ Ht Hs Hct Hcs) as [Hc2 [new2 [Hs2 Hf2]]].
    split; [congruence|].
    exists (new1 ++ new2)%list. rewrite Hs2, Hs1, app_assoc.
    split; [reflexivity | apply Forall_app; auto].
Qed.

Definition login_ok_reply : response :=
  mkResponse 200 [("CST", "abc"); ("X-SECURITY-TOKEN", "xyz")] "{}".

Definition w_login : world :=
  mkWorld demo_client [] [Some login_ok_reply; Some (mkResponse 200 [] (jtext "{'status':'OK'}"))].

(** C7: a login reply that passes [raise_for_status] and carries non-empty
    [CST] and [X-SECURITY-TOKEN] headers makes [login] return [True] and
    store exactly those two values; afterwards any sequence of [ping],
    [search_markets] and [place_market_order] calls keeps them and every
    request it sends carries them as its [CST] and [X-SECURITY-TOKEN]
    headers.  In the spec's scenario (tokens "abc"/"xyz") [ping] sends
    [GET .../api/v1/ping] with headers exactly [{CST: abc,
    X-SECURITY-TOKEN: xyz}] and returns the decoded body. *)
Theorem login_tokens_used : forall loads w r rest t s,
  replies w = Some r :: rest ->
  status_ok (status_code r) = true ->
  header_get (resp_headers r) "CST" = Some t -> t <> "" ->
  header_get (resp_headers r) "X-SECURITY-TOKEN" = Some s -> s <> "" ->
  fst (login w) = Ok true /\
  cst (cl (snd (login w))) = Some t /\
  sec (cl (snd (login w))) = Some s /\
  (forall calls,
     exists new, sent (run_calls loads calls (snd (login w))) = (sent (snd (login w)) ++ new)%list /\
                 Forall (carries t s) new) /\
  ping json_loads_std (snd (login w_login)) =
  (Ok (JObj [("status", JStr "OK")]),
   mkWorld (authed_client "abc" "xyz")
     [login_request demo_client;
      mkRequest "GET" "https://demo/api/v1/ping" [("CST", "abc"); ("X-SECURITY-TOKEN", "xyz")] [] None 10]
     []).
Proof.
  intros loads [c sn rp] r rest t s Hr Hs Hct Ht Hcs Hsn. simpl in Hr. subst rp.
  rewrite (login_reply c sn r rest Hs), Hct, Hcs.
  assert (Ht' : truthy_str (Some t) = true)
    by (unfold truthy_str; apply String.eqb_neq in Ht; rewrite Ht; reflexivity).
  assert (Hs' : truthy_str (Some s) = true)
    by (unfold truthy_str; apply String.eqb_neq in Hsn; rewrite Hsn; reflexivity).
  rewrite Ht', Hs'. simpl.
  split; [reflexivity|]. split; [reflexivity|]. split; [reflexivity|]. split.
  - intros calls.
    apply (run_calls_keep loads t s calls); [exact Ht | exact Hsn | reflexivity | reflexivity].
  - vm_compute. reflexivity.
Qed.

Lemma login_tokens_used_witness :
  replies w_login = Some login_ok_reply :: [Some (mkResponse 200 [] (jtext "{'status':'OK'}"))] /\
  status_ok (status_code login_ok_reply) = true /\
  header_get (resp_headers login_ok_reply) "CST" = Some "abc" /\ "abc" <> "" /\
  header_get (resp_headers login_ok_reply) "X-SECURITY-TOKEN" = Some "xyz" /\ "xyz" <> "" /\
  fst (login w_login) = Ok true.
Proof.
  assert (H1 : replies w_login = Some login_ok_reply :: [Some (mkResponse 200 [] (jtext "{'status':'OK'}"))])
    by reflexivity.
  assert (H2 : status_ok (status_code login_ok_reply) = true) by reflexivity.
  assert (H3 : header_get (resp_headers login_ok_reply) "CST" = Some "abc") by reflexivity.
  assert (H4 : "abc" <> "") by discriminate.
  assert (H5 : header_get (resp_headers login_ok_reply) "X-SECURITY-TOKEN" = Some "xyz") by reflexivity.
  assert (H6 : "xyz" <> "") by discriminate.
  repeat (split; [assumption|]).
  exact (proj1 (login_tokens_used json_loads_std w_login login_ok_reply _ "abc" "xyz" H1 H2 H3 H4 H5 H6)).
Defined.

(** ** [place_market_order] along its paths *)

Definition order_payload (epic : json) (dir : string) (fsize : json)
    (risk : list (string * json)) : list (string * json) :=
  dict_update [("epic", epic); ("direction", JStr (str_upper dir)); ("size", fsize)] (non_null risk).

Definition post_request (c : client) (t s : string) (payload : list (string * json)) : request :=
  mkRequest "POST" (base_url c ++ "/api/v1/positions")
    [("CST", t); ("X-SECURITY-TOKEN", s); ("Content-Type", "application/json")] []
    (Some (JObj payload)) 20.

Definition confirm_request (c : client) (t s ref : string) : request :=
  mkRequest "GET" (base_url c ++ "/api/v1/confirms/" ++ ref)
    [("CST", t); ("X-SECURITY-TOKEN", s)] [] None 20.

Lemma dict_get_app : forall V (a b : list (string * V)) k,
  dict_get (a ++ b)%list k = match dict_get a k with Some v => Some v | None => dict_get b k end.
Proof.
  intros V a b k. induction a as [|[k' v'] a IH]; [reflexivity|].
  simpl. destruct (String.eqb k k'); [reflexivity | exact IH].
Qed.

Lemma dict_set_absent : forall V (d : list (string * V)) k v,
  dict_get d k = None -> dict_set d k v = (d ++ [(k, v)])%list.
Proof.
  intros V d k v. induction d as [|[k' v'] d IH]; [reflexivity|].
  simpl. destruct (String.eqb k k'); [discriminate|].
  intros H. rewrite (IH H). reflexivity.
Qed.

Lemma dict_update_fresh : forall V (e base : list (string * V)),
  NoDup (map fst e) ->
  (forall k, In k (map fst e) -> dict_get base k = None) ->
  dict_update base e = (base ++ e)%list.
Proof.
  intros V e. induction e as [|[k v] e IH]; intros base Hnd Hfresh.
  - simpl. rewrite app_nil_r. reflexivity.
  - unfold dict_update. simpl.
    rewrite (dict_set_absent V base k v (Hfresh k (or_introl eq_refl))).
    inversion Hnd as [|? ? Hnin Hnd']; subst.
    change (dict_update (base ++ [(k, v)])%list e = (base ++ (k, v) :: e)%list).
    rewrite IH; [rewrite <- app_assoc; reflexivity | exact Hnd' |].
    intros k' Hk'. rewrite dict_get_app, (Hfresh k' (or_intror Hk')). simpl.
    destruct (String.eqb k' k) eqn:E; [|reflexivity].
    apply String.eqb_eq in E. subst. contradiction.
Qed.

Lemma non_null_keys : forall risk k,
  In k (map fst (non_null risk)) -> In k (map fst risk).
Proof.
  intros risk k. unfold non_null. induction risk as [|[k' v] risk IH]; simpl; [auto|].
  destruct v; simpl; intuition.
Qed.

Lemma non_null_nodup : forall risk,
  NoDup (map fst risk) -> NoDup (map fst (non_null risk)).
Proof.
  induction risk as [|[k v] risk IH]; intros H; simpl; [constructor|].
  inversion H as [|? ? Hnin Hnd]; subst.
  assert (Hnin' : ~ In k (map fst (non_null risk))) by (intro Hk; apply Hnin, non_null_keys, Hk).
  destruct v; simpl; first [constructor; [exact Hnin' | apply IH, Hnd] | apply IH, Hnd].
Qed.

(** Python keyword arguments: distinct names, none of them a positional
    parameter of [place_market_order]. *)
Definition kwargs_ok (risk : list (string * json)) : Prop :=
  NoDup (map fst risk) /\
  forall k, In k (map fst risk) -> k <> "epic" /\ k <> "direction" /\ k <> "size".

Lemma order_payload_shape : forall epic dir fsize risk,
  kwargs_ok risk ->
  order_payload epic dir fsize risk =
  ([("epic", epic); ("direction", JStr (str_upper dir)); ("size", fsize)] ++ non_null risk)%list.
Proof.
  intros epic dir fsize risk [Hnd Hk]. unfold order_payload.
  apply dict_update_fresh; [apply non_null_nodup, Hnd|].
  intros k Hin. destruct (Hk k (non_null_keys risk k Hin)) as [H1 [H2 H3]].
  apply String.eqb_neq in H1, H2, H3. simpl. rewrite H1, H2, H3. reflexivity.
Qed.

(** [place_market_order] on an authenticated client, case by case on the
    venue's replies. *)
Lemma place_eval : forall loads c sn rp t s epic dir size fsize risk,
  cst c = Some t -> sec c = Some s -> t <> "" -> s <> "" ->
  py_float size = Ok fsize ->
  place_market_order loads epic (JStr dir) size risk (mkWorld c sn rp) =
  let post := post_request c t s (order_payload epic dir fsize risk) in
  let purl := base_url c ++ "/api/v1/positions" in
  match rp with
  | [] => (Err ConnectionError, mkWorld c (sn ++ [post])%list [])
  | None :: rest => (Err ConnectionError, mkWorld c (sn ++ [post])%list rest)
  | Some r1 :: rest =>
      if status_ok (status_code r1) then
        match loads (resp_text r1) with
        | None => (Err JSONDecodeError, mkWorld c (sn ++ [post])%list rest)
        | Some (JObj d) =>
            let ref := match dict_get d "dealReference" with Some x => x | None => JNull end in
            let curl := base_url c ++ "/api/v1/confirms/" ++ py_str ref in
            let conf := confirm_request c t s (py_str ref) in
            match rest with
            | [] => (Err ConnectionError, mkWorld c ((sn ++ [post]) ++ [conf])%list [])
            | None :: rest' => (Err ConnectionError, mkWorld c ((sn ++ [post]) ++ [conf])%list rest')
            | Some r2 :: rest' =>
                if status_ok (status_code r2) then
                  match loads (resp_text r2) with
                  | None => (Err JSONDecodeError, mkWorld c ((sn ++ [post]) ++ [conf])%list rest')
                  | Some cj => (Ok (JObj [("dealReference", ref); ("confirm", cj)]),
                                mkWorld c ((sn ++ [post]) ++ [conf])%list rest')
                  end
                else (Err (HTTPError curl (status_code r2)), mkWorld c ((sn ++ [post]) ++ [conf])%list rest')
            end
        | Some _ => (Err (AttributeError "get"), mkWorld c (sn ++ [post])%list rest)
        end
      else (Err (HTTPError purl (status_code r1)), mkWorld c (sn ++ [post])%list rest)
  end.
Proof.
  intros loads [b k i p ct cs] sn rp t s epic dir size fsize risk Hct Hcs Ht Hs Hv.
  simpl in Hct, Hcs. subst ct cs.
  apply String.eqb_neq in Ht, Hs.
  unfold place_market_order. run_m. rewrite Hv. run_m.
  unfold auth_headers, truthy_str, status_ok in *. run_m. rewrite Ht, Hs. simpl.
  destruct rp as [|[r1|] rest]; [reflexivity | | reflexivity].
  destruct ((400 <=? status_code r1)%Z && (status_code r1 <? 600)%Z); [reflexivity|]. simpl.
  destruct (loads (resp_text r1)) as [[| | | | | |d]|]; try reflexivity.
  simpl. rewrite Ht, Hs. simpl.
  destruct rest as [|[r2|] rest']; [reflexivity | | reflexivity].
  destruct ((400 <=? status_code r2)%Z && (status_code r2 <? 600)%Z); [reflexivity|]. simpl.
  destruct (loads (resp_text r2)); reflexivity.
Qed.

Definition order_client : client := authed_client "abc" "xyz".

Definition w_order : world :=
  mkWorld order_client []
    [Some (mkResponse 200 [] (jtext "{'dealReference':'D1'}"));
     Some (mkResponse 200 [] (jtext "{'dealStatus':'ACCEPTED'}"))].

(** C6: on an authenticated client, [place_market_order(epic, direction,
    size, **risk)] first POSTs to [/api/v1/positions] the dict [{epic,
    direction.upper(), float(size)}] followed by the keyword arguments whose
    value is not [None], in call order; when the POST succeeds with a
    [dealReference], it GETs [/api/v1/confirms/<dealReference>] and returns
    [{dealReference, confirm}].  The spec's scenario
    [("BTCUSD", "buy", 1, profitDistance=10)] posts [{epic: "BTCUSD",
    direction: "BUY", size: 1.0, profitDistance: 10}], receives
    [{dealReference: "D1"}], GETs [/api/v1/confirms/D1] and returns both. *)
Theorem place_order_posts_payload : forall loads c sn rp t s epic dir size fsize risk,
  cst c = Some t -> sec c = Some s -> t <> "" -> s <> "" ->
  py_float size = Ok fsize -> kwargs_ok risk ->
  let payload := ([("epic", epic); ("direction", JStr (str_upper dir)); ("size", fsize)]
                  ++ non_null risk)%list in
  (exists more,
     sent (snd (place_market_order loads epic (JStr dir) size risk (mkWorld c sn rp))) =
     (sn ++ post_request c t s payload :: more)%list) /\
  (forall r1 r2 rest d ref cj,
     rp = Some r1 :: Some r2 :: rest ->
     status_ok (status_code r1) = true -> loads (resp_text r1) = Some (JObj d) ->
     dict_get d "dealReference" = Some (JStr ref) ->
     status_ok (status_code r2) = true -> loads (resp_text r2) = Some cj ->
     place_market_order loads epic (JStr dir) size risk (mkWorld c sn rp) =
     (Ok (JObj [("dealReference", JStr ref); ("confirm", cj)]),
      mkWorld c (sn ++ [post_request c t s payload; confirm_request c t s ref])%list rest)) /\
  place_market_order json_loads_std (JStr "BTCUSD") (JStr "buy") (JInt 1)
    [("profitDistance", JInt 10)] w_order =
  (Ok (JObj [("dealReference", JStr "D1"); ("confirm", JObj [("dealStatus", JStr "ACCEPTED")])]),
   mkWorld order_client
     [post_request order_client "abc" "xyz"
        [("epic", JStr "BTCUSD"); ("direction", JStr "BUY"); ("size", JFloat (inject_Z 1));
         ("profitDistance", JInt 10)];
      confirm_request order_client "abc" "xyz" "D1"] []).
Proof.
  intros loads c sn rp t s epic dir size fsize risk Hct Hcs Ht Hs Hv Hk payload.
  pose proof (place_eval loads c sn rp t s epic dir size fsize risk Hct Hcs Ht Hs Hv) as He.
  rewrite (order_payload_shape epic dir fsize risk Hk) in He. fold payload in He.
  split; [|split].
  - rewrite He. cbv zeta.
    destruct rp as [|[r1|] rest]; [exists []; reflexivity | | exists []; reflexivity].
    destruct (status_ok (status_code r1)); [|exists []; reflexivity].
    destruct (loads (resp_text r1)) as [[| | | | | |d]|]; try (exists []; reflexivity).
    destruct rest as [|[r2|] rest'];
      [| destruct (status_ok (status_code r2)); [destruct (loads (resp_text r2))|] |];
      simpl; rewrite <- app_assoc; eexists; reflexivity.
  - intros r1 r2 rest d ref cj Hrp H1 Hl1 Hd H2 Hl2.
    rewrite He, Hrp. cbv zeta. rewrite H1, Hl1, Hd, H2, Hl2. simpl.
    rewrite <- app_assoc. reflexivity.
  - vm_compute. reflexivity.
Qed.

Lemma place_order_posts_payload_witness :
  cst order_client = Some "abc" /\ sec order_client = Some "xyz" /\
  py_float (JInt 1) = Ok (JFloat (inject_Z 1)) /\ kwargs_ok [("profitDistance", JInt 10)] /\
  exists more,
    sent (snd (place_market_order json_loads_std (JStr "BTCUSD") (JStr "buy") (JInt 1)
                 [("profitDistance", JInt 10)] w_order)) =
    ([] ++ post_request order_client "abc" "xyz"
             ([("epic", JStr "BTCUSD"); ("direction", JStr (str_upper "buy"));
               ("size", JFloat (inject_Z 1))] ++ non_null [("profitDistance", JInt 10)]) :: more)%list.
Proof.
  assert (H1 : cst order_client = Some "abc") by reflexivity.
  assert (H2 : sec order_client = Some "xyz") by reflexivity.
  assert (H3 : "abc" <> "") by discriminate.
  assert (H4 : "xyz" <> "") by discriminate.
  assert (H5 : py_float (JInt 1) = Ok (JFloat (inject_Z 1))) by reflexivity.
  assert (H6 : kwargs_ok [("profitDistance", JInt 10)]).
  { split.
    - constructor; [intros []| constructor].
    - intros k [Hk|[]]. simpl in Hk. subst k. repeat split; discriminate. }
  repeat (split; [assumption|]).
  exact (proj1 (place_order_posts_payload json_loads_std order_client [] (replies w_order)
                  "abc" "xyz" (JStr "BTCUSD") "buy" (JInt 1) (JFloat (inject_Z 1))
                  [("profitDistance", JInt 10)] H1 H2 H3 H4 H5 H6)).
Defined.

Definition w_post_500 : world :=
  mkWorld order_client [] [Some (mkResponse 500 [] "{}")].

Definition w_confirm_500 : world :=
  mkWorld order_client []
    [Some (mkResponse 200 [] (jtext "{'dealReference':'D1'}")); Some (mkResponse 500 [] "{}")].

(** C2 (as stated: a failed POST and a failed confirmation surface as two
    distinct error kinds, [OrderRejected] and [ConfirmationUnavailable])
    fails: both raise [requests]' [HTTPError], one and the same exception
    class. *)
Lemma order_failures_share_class :
  fst (place_market_order json_loads_std (JStr "BTCUSD") (JStr "buy") (JInt 1) [] w_post_500) =
    Err (HTTPError "https://demo/api/v1/positions" 500) /\
  fst (place_market_order json_loads_std (JStr "BTCUSD") (JStr "buy") (JInt 1) [] w_confirm_500) =
    Err (HTTPError "https://demo/api/v1/confirms/D1" 500) /\
  exn_class_of (HTTPError "https://demo/api/v1/positions" 500) =
  exn_class_of (HTTPError "https://demo/api/v1/confirms/D1" 500).
Proof. vm_compute. repeat split. Qed.

(** C2 (amended): on an authenticated client, a transport failure of the
    order POST raises [ConnectionError] and an error status raises
    [HTTPError] for the positions URL; in both cases only the POST was
    sent.  When the POST succeeds with a [dealReference], a transport
    failure of the confirmation GET raises [ConnectionError] and an error
    status raises [HTTPError] for the confirms URL, after both requests were
    sent.  The two failures share their exception classes; only the URL
    carried by [HTTPError] tells them apart. *)
Theorem place_order_failures : forall loads c sn t s epic dir size fsize risk,
  cst c = Some t -> sec c = Some s -> t <> "" -> s <> "" ->
  py_float size = Ok fsize ->
  let post := post_request c t s (order_payload epic dir fsize risk) in
  (forall rest,
     place_market_order loads epic (JStr dir) size risk (mkWorld c sn (None :: rest)) =
     (Err ConnectionError, mkWorld c (sn ++ [post])%list rest)) /\
  (forall r rest,
     status_ok (status_code r) = false ->
     place_market_order loads epic (JStr dir) size risk (mkWorld c sn (Some r :: rest)) =
     (Err (HTTPError (base_url c ++ "/api/v1/positions") (status_code r)),
      mkWorld c (sn ++ [post])%list rest)) /\
  (forall r1 d ref rest,
     status_ok (status_code r1) = true -> loads (resp_text r1) = Some (JObj d) ->
     dict_get d "dealReference" = Some (JStr ref) ->
     place_market_order loads epic (JStr dir) size risk (mkWorld c sn (Some r1 :: None :: rest)) =
     (Err ConnectionError, mkWorld c (sn ++ [post; confirm_request c t s ref])%list rest) /\
     (forall r2,
        status_ok (status_code r2) = false ->
        place_market_order loads epic (JStr dir) size risk (mkWorld c sn (Some r1 :: Some r2 :: rest)) =
        (Err (HTTPError (base_url c ++ "/api/v1/confirms/" ++ ref) (status_code r2)),
         mkWorld c (sn ++ [post; confirm_request c t s ref])%list rest))).
Proof.
  intros loads c sn t s epic dir size fsize risk Hct Hcs Ht Hs Hv post.
  pose proof (place_eval loads c sn) as He.
  split; [|split].
  - intros rest. rewrite (He _ t s epic dir size fsize risk Hct Hcs Ht Hs Hv). reflexivity.
  - intros r rest H. rewrite (He _ t s epic dir size fsize risk Hct Hcs Ht Hs Hv). cbv zeta.
    rewrite H. reflexivity.
  - intros r1 d ref rest H1 Hl Hd. split.
    + rewrite (He _ t s epic dir size fsize risk Hct Hcs Ht Hs Hv). cbv zeta.
      rewrite H1, Hl, Hd. simpl. rewrite <- app_assoc. reflexivity.
    + intros r2 H2. rewrite (He _ t s epic dir size fsize risk Hct Hcs Ht Hs Hv). cbv zeta.
      rewrite H1, Hl, Hd, H2. simpl. rewrite <- app_assoc. reflexivity.
Qed.

Lemma place_order_failures_witness :
  cst order_client = Some "abc" /\ sec order_client = Some "xyz" /\
  py_float (JInt 1) = Ok (JFloat (inject_Z 1)) /\
  place_market_order json_loads_std (JStr "BTCUSD") (JStr "buy") (JInt 1) []
    (mkWorld order_client [] [Some (mkResponse 500 [] "{}")]) =
  (Err (HTTPError (base_url order_client ++ "/api/v1/positions") 500),
   mkWorld order_client
     ([] ++ [post_request order_client "abc" "xyz" (order_payload (JStr "BTCUSD") "buy" (JFloat (inject_Z 1)) [])])%list
     []).
Proof.
  assert (H1 : cst order_client = Some "abc") by reflexivity.
  assert (H2 : sec order_client = Some "xyz") by reflexivity.
  assert (H3 : "abc" <> "") by discriminate.
  assert (H4 : "xyz" <> "") by discriminate.
  assert (H5 : py_float (JInt 1) = Ok (JFloat (inject_Z 1))) by reflexivity.
  assert (H6 : status_ok (status_code (mkResponse 500 [] "{}")) = false) by reflexivity.
  repeat (split; [assumption|]).
  exact (proj1 (proj2 (place_order_failures json_loads_std order_client [] "abc" "xyz"
                         (JStr "BTCUSD") "buy" (JInt 1) (JFloat (inject_Z 1)) [] H1 H2 H3 H4 H5))
           (mkResponse 500 [] "{}") [] H6).
Defined.

(** Without a [dealReference] in the order reply, the confirmation is
    still requested, at [/api/v1/confirms/None], and its answer returned
    with a null deal reference. *)
Lemma missing_deal_reference_confirms_None :
  place_market_order json_loads_std (JStr "BTCUSD") (JStr "buy") (JInt 1) []
    (mkWorld order_client []
       [Some (mkResponse 200 [] "{}"); Some (mkResponse 200 [] (jtext "{'dealStatus':'REJECTED'}"))]) =
  (Ok (JObj [("dealReference", JNull); ("confirm", JObj [("dealStatus", JStr "REJECTED")])]),
   mkWorld order_client
     [post_request order_client "abc" "xyz"
        [("epic", JStr "BTCUSD"); ("direction", JStr "BUY"); ("size", JFloat (inject_Z 1))];
      confirm_request order_client "abc" "xyz" "None"] []).
Proof. vm_compute. reflexivity. Qed.

(** * Further properties of the client *)

(** ** Bookkeeping of the REST methods other than [login]

    [io_within n m]: running [m] leaves the client object as it is, only
    appends requests to the log, at most [n] of them, and consumes exactly
    one reply of the oracle per request sent (none once it is exhausted). *)
Definition io_within {A} (n : nat) (m : M A) : Prop :=
  forall w,
    cl (snd (m w)) = cl w /\
    exists new, sent (snd (m w)) = (sent w ++ new)%list /\
                replies (snd (m w)) = skipn (List.length new) (replies w) /\
                (List.length new <= n)%nat.

Lemma io_pure : forall A (m : M A), (forall w, snd (m w) = w) -> io_within 0 m.
Proof.
  intros A m H w. rewrite H. split; [reflexivity|].
  exists []. rewrite app_nil_r. split; [reflexivity|]. split; [reflexivity | simpl; lia].
Qed.

Lemma io_bind : forall A B n k (m : M A) (f : A -> M B),
  io_within n m -> (forall a, io_within k (f a)) -> io_within (n + k) (bind m f).
Proof.
  intros A B n k m f Hm Hf w. unfold bind.
  destruct (Hm w) as [Hc1 [new1 [Hs1 [Hr1 Hl1]]]].
  destruct (m w) as [[a|e] w1]; simpl in *.
  - destruct (Hf a w1) as [Hc2 [new2 [Hs2 [Hr2 Hl2]]]].
    split; [congruence|].
    exists (new1 ++ new2)%list. rewrite Hs2, Hs1, app_assoc. split; [reflexivity|].
    rewrite Hr2, Hr1, skipn_skipn, length_app. split; [f_equal; lia | lia].
  - split; [exact Hc1|]. exists new1. split; [exact Hs1|]. split; [exact Hr1 | lia].
Qed.

Lemma io_mono : forall A n N (m : M A), io_within n m -> (n <= N)%nat -> io_within N m.
Proof.
  intros A n N m H Hle w. destruct (H w) as [Hc [new [Hs [Hr Hl]]]].
  split; [exact Hc|]. exists new. split; [exact Hs|]. split; [exact Hr | lia].
Qed.

Lemma io_ret : forall A (a : A), io_within 0 (ret a).
Proof. intros. apply io_pure. reflexivity. Qed.

Lemma io_get_client : io_within 0 get_client.
Proof. apply io_pure. reflexivity. Qed.

Lemma io_of_option : forall A (o : option A) e, io_within 0 (of_option o e).
Proof. intros A [a|] e; apply io_pure; reflexivity. Qed.

Lemma io_of_result : forall A (r : result A), io_within 0 (of_result r).
Proof. intros A [a|e]; apply io_pure; reflexivity. Qed.

Lemma io_raise_for_status : forall url r, io_within 0 (raise_for_status url r).
Proof.
  intros url r. apply io_pure. intros w. unfold raise_for_status.
  destruct (_ && _); reflexivity.
Qed.

Lemma io_resp_json : forall loads r, io_within 0 (resp_json loads r).
Proof. intros. apply io_of_option. Qed.

Lemma io_py_get : forall v k, io_within 0 (py_get v k).
Proof. intros [] k; apply io_pure; reflexivity. Qed.

Lemma io_auth_headers : io_within 0 auth_headers.
Proof.
  apply io_pure. intros [[b k i p [t|] [s|]] sn rp]; unfold auth_headers; run_m; try reflexivity.
  destruct (truthy_str (Some t) && truthy_str (Some s)); reflexivity.
Qed.

Lemma io_http : forall meth url h params body timeout,
  io_within 1 (http meth url h params body timeout).
Proof.
  intros meth url h params body timeout w. unfold http.
  destruct (replies w) as [|[r|] rest] eqn:E; simpl;
    (split; [reflexivity|]); exists [mkRequest meth url h params body timeout];
    (split; [reflexivity|]); (split; [reflexivity | simpl; lia]).
Qed.

Ltac io_step :=
  cbv beta zeta;
  first
    [ apply io_bind; [ first [ apply io_get_client | apply io_auth_headers | apply io_of_option
                             | apply io_of_result | apply io_raise_for_status | apply io_resp_json
                             | apply io_py_get | apply io_http ] | intro ]
    | apply io_ret
    | apply io_resp_json ].

Lemma ping_io : forall loads, io_within 1 (ping loads).
Proof. intros loads. eapply io_mono; [unfold ping; repeat io_step | simpl; lia]. Qed.

Lemma search_io : forall loads term epics, io_within 1 (search_markets loads term epics).
Proof. intros. eapply io_mono; [unfold search_markets; repeat io_step | simpl; lia]. Qed.

Lemma place_io : forall loads epic dir size risk,
  io_within 2 (place_market_order loads epic dir size risk).
Proof. intros. eapply io_mono; [unfold place_market_order; repeat io_step | simpl; lia]. Qed.

(** [login] on any world sends exactly its own request and consumes one
    reply. *)
Lemma login_sent : forall c sn rp,
  sent (snd (login (mkWorld c sn rp))) = (sn ++ [login_request c])%list /\
  replies (snd (login (mkWorld c sn rp))) = skipn 1 rp.
Proof.
  intros c sn [|[r|] rest]; unfold login; run_m; try (split; reflexivity).
  destruct ((400 <=? status_code r)%Z && (status_code r <? 600)%Z); [split; reflexivity|].
  simpl. destruct (truthy_str _); destruct (truthy_str _); split; reflexivity.
Qed.

(** [ping] on an authenticated client, case by case on the reply. *)
Lemma ping_eval : forall loads c sn rp t s,
  cst c = Some t -> sec c = Some s -> t <> "" -> s <> "" ->
  ping loads (mkWorld c sn rp) =
  let url := base_url c ++ "/api/v1/ping" in
  let q := mkRequest "GET" url [("CST", t); ("X-SECURITY-TOKEN", s)] [] None 10 in
  match rp with
  | [] => (Err ConnectionError, mkWorld c (sn ++ [q])%list [])
  | None :: rest => (Err ConnectionError, mkWorld c (sn ++ [q])%list rest)
  | Some r :: rest =>
      (if status_ok (status_code r) then
         match loads (resp_text r) with Some j => Ok j | None => Err JSONDecodeError end
       else Err (HTTPError url (status_code r)),
       mkWorld c (sn ++ [q])%list rest)
  end.
Proof.
  intros loads [b k i p ct cs] sn rp t s Hct Hcs Ht Hs. simpl in Hct, Hcs. subst ct cs.
  apply String.eqb_neq in Ht, Hs.
  unfold ping, auth_headers, truthy_str, status_ok. run_m. rewrite Ht, Hs. simpl.
  destruct rp as [|[r|] rest]; [reflexivity | | reflexivity].
  destruct ((400 <=? status_code r)%Z && (status_code r <? 600)%Z); [reflexivity|].
  simpl. destruct (loads (resp_text r)); reflexivity.
Qed.

(** The query parameters of [search_markets]. *)
Definition search_params (term : string) (epics : list string) : list (string * string) :=
  match epics with
  | [] => [("searchTerm", term)]
  | _ => [("searchTerm", term); ("epics", join "," epics)]
  end.

Lemma search_eval : forall loads c sn rp t s term epics,
  cst c = Some t -> sec c = Some s -> t <> "" -> s <> "" ->
  search_markets loads term epics (mkWorld c sn rp) =
  let url := base_url c ++ "/api/v1/markets" in
  let q := mkRequest "GET" url [("CST", t); ("X-SECURITY-TOKEN", s)] (search_params term epics) None 20 in
  match rp with
  | [] => (Err ConnectionError, mkWorld c (sn ++ [q])%list [])
  | None :: rest => (Err ConnectionError, mkWorld c (sn ++ [q])%list rest)
  | Some r :: rest =>
      (if status_ok (status_code r) then
         match loads (resp_text r) with Some j => Ok j | None => Err JSONDecodeError end
       else Err (HTTPError url (status_code r)),
       mkWorld c (sn ++ [q])%list rest)
  end.
Proof.
  intros loads [b k i p ct cs] sn rp t s term epics Hct Hcs Ht Hs. simpl in Hct, Hcs. subst ct cs.
  apply String.eqb_neq in Ht, Hs.
  assert (Hp : match epics with [] => [("searchTerm", term)]
                              | _ => dict_set [("searchTerm", term)] "epics" (join "," epics) end
               = search_params term epics) by (destruct epics; reflexivity).
  unfold search_markets, auth_headers, truthy_str, status_ok. run_m. rewrite Hp, Ht, Hs. simpl.
  destruct rp as [|[r|] rest]; [reflexivity | | reflexivity].
  destruct ((400 <=? status_code r)%Z && (status_code r <? 600)%Z); [reflexivity|].
  simpl. destruct (loads (resp_text r)); reflexivity.
Qed.

(** ** The [epics] query parameter *)

Definition no_comma (s : string) : Prop := ~ In ","%char (list_ascii_of_string s).

Lemma no_comma_not_split : forall x y b,
  no_comma x -> x <> (y ++ String "," b).
Proof.
  induction x as [|cx x IH]; intros [|cy y] b Hx Heq; simpl in Heq; try discriminate.
  - inversion Heq; subst. apply Hx. left. reflexivity.
  - inversion Heq; subst. apply (IH y b); [intro Hin; apply Hx; right; exact Hin | reflexivity].
Qed.

Lemma comma_split_unique : forall x y a b,
  no_comma x -> no_comma y -> (x ++ String "," a) = (y ++ String "," b) -> x = y /\ a = b.
Proof.
  induction x as [|cx x IH]; intros [|cy y] a b Hx Hy Heq; simpl in Heq.
  - inversion Heq. auto.
  - inversion Heq; subst. exfalso. apply Hy. left. reflexivity.
  - inversion Heq; subst. exfalso. apply Hx. left. reflexivity.
  - inversion Heq; subst.
    destruct (IH y a b) as [-> ->]; [intro Hin; apply Hx; right; exact Hin
                                   | intro Hin; apply Hy; right; exact Hin | exact H1 | ].
    auto.
Qed.

Lemma join_cons2 : forall sep x y rest,
  join sep (x :: y :: rest) = x ++ sep ++ join sep (y :: rest).
Proof. reflexivity. Qed.

Lemma join_comma_injective : forall xs ys,
  xs <> [] -> ys <> [] -> Forall no_comma xs -> Forall no_comma ys ->
  join "," xs = join "," ys -> xs = ys.
Proof.
  induction xs as [|x xs IH]; intros ys Hx Hy Fx Fy Heq; [congruence|].
  inversion Fx as [|? ? Hnx Fxs]; subst.
  destruct ys as [|y ys]; [congruence|].
  inversion Fy as [|? ? Hny Fys]; subst.
  destruct xs as [|x' xs]; destruct ys as [|y' ys].
  - simpl in Heq. subst. reflexivity.
  - rewrite join_cons2 in Heq. simpl in Heq. exfalso. exact (no_comma_not_split _ _ _ Hnx Heq).
  - rewrite join_cons2 in Heq. simpl in Heq. exfalso.
    exact (no_comma_not_split _ _ _ Hny (eq_sym Heq)).
  - rewrite !join_cons2 in Heq. simpl in Heq.
    destruct (comma_split_unique x y _ _ Hnx Hny Heq) as [-> Hrest].
    f_equal. apply IH; [discriminate | discriminate | exact Fxs | exact Fys | exact Hrest].
Qed.

(** ** [place_market_order]: argument checks and the reply of the POST *)



(** ** The script: helper lemmas *)

Lemma login_ok_tokens : forall c sn rp b w1,
  login (mkWorld c sn rp) = (Ok b, w1) ->
  exists t s, cl w1 = set_tokens c (Some t) (Some s) /\ t <> "" /\ s <> "".
Proof.
  intros c sn [|[r|] rest] b w1 H; [unfold login in H; run_m; discriminate | |
                                     unfold login in H; run_m; discriminate].
  destruct (status_ok (status_code r)) eqn:Hs.
  - rewrite (login_reply c sn r rest Hs) in H.
    destruct (header_get (resp_headers r) "CST") as [t|] eqn:Ht;
      destruct (header_get (resp_headers r) "X-SECURITY-TOKEN") as [s|] eqn:Hs';
      simpl in H; [| destruct (String.eqb t ""); simpl in H; discriminate | discriminate | discriminate].
    destruct (String.eqb t "") eqn:E1; destruct (String.eqb s "") eqn:E2; simpl in H; try discriminate.
    inversion H; subst. exists t, s. apply String.eqb_neq in E1, E2. repeat split; assumption.
  - unfold status_ok in Hs. apply negb_false_iff in Hs.
    unfold login in H. run_m. rewrite Hs in H. discriminate.
Qed.

Lemma ping_ok_world : forall loads c sn rp t s j w2,
  cst c = Some t -> sec c = Some s -> t <> "" -> s <> "" ->
  ping loads (mkWorld c sn rp) = (Ok j, w2) ->
  cl w2 = c /\
  sent w2 = (sn ++ [mkRequest "GET" (base_url c ++ "/api/v1/ping")
                       [("CST", t); ("X-SECURITY-TOKEN", s)] [] None 10])%list.
Proof.
  intros loads c sn rp t s j w2 Hct Hcs Ht Hs H.
  rewrite (ping_eval loads c sn rp t s Hct Hcs Ht Hs) in H. cbv zeta in H.
  destruct rp as [|[r|] rest]; try discriminate.
  destruct (status_ok (status_code r)); [destruct (loads (resp_text r))|]; try discriminate.
  inversion H; subst. split; reflexivity.
Qed.

Lemma search_ok_world : forall loads c sn rp t s term epics j w3,
  cst c = Some t -> sec c = Some s -> t <> "" -> s <> "" ->
  search_markets loads term epics (mkWorld c sn rp) = (Ok j, w3) ->
  cl w3 = c /\
  sent w3 = (sn ++ [mkRequest "GET" (base_url c ++ "/api/v1/markets")
                       [("CST", t); ("X-SECURITY-TOKEN", s)] (search_params term epics) None 20])%list.
Proof.
  intros loads c sn rp t s term epics j w3 Hct Hcs Ht Hs H.
  rewrite (search_eval loads c sn rp t s term epics Hct Hcs Ht Hs) in H. cbv zeta in H.
  destruct rp as [|[r|] rest]; try discriminate.
  destruct (status_ok (status_code r)); [destruct (loads (resp_text r))|]; try discriminate.
  inversion H; subst. split; reflexivity.
Qed.

(** After a successful login, ping and search, the client holds the
    login's tokens and exactly three requests were sent. *)
Lemma main_prefix : forall loads cap rp x y markets w1 w2 w3,
  login (mkWorld cap [] rp) = (Ok x, w1) ->
  ping loads w1 = (Ok y, w2) ->
  search_markets loads "BTC" [] w2 = (Ok markets, w3) ->
  exists t s,
    cl w3 = set_tokens cap (Some t) (Some s) /\ t <> "" /\ s <> "" /\
    sent w3 = [login_request cap;
               mkRequest "GET" (base_url cap ++ "/api/v1/ping")
                 [("CST", t); ("X-SECURITY-TOKEN", s)] [] None 10;
               mkRequest "GET" (base_url cap ++ "/api/v1/markets")
                 [("CST", t); ("X-SECURITY-TOKEN", s)] [("searchTerm", "BTC")] None 20].
Proof.
  intros loads cap rp x y markets w1 w2 w3 H1 H2 H3.
  destruct (login_ok_tokens cap [] rp x w1 H1) as [t [s [Hc1 [Ht Hs]]]].
  assert (Hsent1 : sent w1 = [login_request cap]).
  { pose proof (proj1 (login_sent cap [] rp)) as E. rewrite H1 in E. exact E. }
  destruct w1 as [c1 sn1 rp1]. simpl in Hc1, Hsent1. subst c1 sn1.
  destruct (ping_ok_world loads (set_tokens cap (Some t) (Some s)) _ rp1 t s y w2 eq_refl eq_refl Ht Hs H2)
    as [Hc2 Hs2].
  destruct w2 as [c2 sn2 rp2]. simpl in Hc2, Hs2. subst c2 sn2.
  destruct (search_ok_world loads (set_tokens cap (Some t) (Some s)) _ rp2 t s "BTC" [] markets w3
              eq_refl eq_refl Ht Hs H3)
    as [Hc3 Hs3].
  exists t, s. split; [exact Hc3|]. split; [exact Ht|]. split; [exact Hs|].
  rewrite Hs3. reflexivity.
Qed.

(** ** [BASE_URL]: helper lemmas *)

Lemma drop_slashes_spec : forall l,
  exists k, l = (repeat "/"%char k ++ drop_slashes l)%list /\
            forall l', drop_slashes l <> "/"%char :: l'.
Proof.
  induction l as [|c l IH].
  - exists 0%nat. split; [reflexivity | discriminate].
  - simpl. destruct (Ascii.eqb c "/"%char) eqn:E.
    + apply Ascii.eqb_eq in E. subst c. destruct IH as [k [Hk Hn]].
      exists (S k). split; [simpl; f_equal; exact Hk | exact Hn].
    + exists 0%nat. split; [reflexivity|].
      intros l' Heq. inversion Heq; subst. rewrite Ascii.eqb_refl in E. discriminate.
Qed.

Lemma string_of_list_ascii_app : forall a b,
  string_of_list_ascii (a ++ b)%list = string_of_list_ascii a ++ string_of_list_ascii b.
Proof. induction a as [|c a IH]; intros b; simpl; [reflexivity | rewrite IH; reflexivity]. Qed.

Lemma list_ascii_of_string_app : forall a b,
  list_ascii_of_string (a ++ b) = (list_ascii_of_string a ++ list_ascii_of_string b)%list.
Proof. induction a as [|c a IH]; intros b; simpl; [reflexivity | rewrite IH; reflexivity]. Qed.

(** [n] slashes. *)
Definition slashes (n : nat) : string := string_of_list_ascii (repeat "/"%char n).

Lemma rstrip_slash_spec : forall s,
  (exists k, s = rstrip_slash s ++ slashes k) /\
  (forall pre, rstrip_slash s <> pre ++ "/").
Proof.
  intros s. unfold rstrip_slash.
  destruct (drop_slashes_spec (rev (list_ascii_of_string s))) as [k [Hk Hn]].
  split.
  - exists k. unfold slashes. rewrite <- string_of_list_ascii_app.
    rewrite <- (rev_repeat k "/"%char), <- rev_app_distr, <- Hk, rev_involutive.
    symmetry. apply string_of_list_ascii_of_string.
  - intros pre Heq.
    apply (f_equal list_ascii_of_string) in Heq.
    rewrite list_ascii_of_string_of_list_ascii, list_ascii_of_string_app in Heq.
    apply (f_equal (@rev ascii)) in Heq. rewrite rev_involutive, rev_app_distr in Heq.
    exact (Hn _ Heq).
Qed.

(** ** The stream: helper lemma *)

Lemma recv_loop_deadline : forall loads f t_end pre evs now r rest,
  recv_loop loads f t_end pre = (Pending, evs) -> t_end <= now ->
  recv_loop loads f t_end (pre ++ (now, r) :: rest)%list = (Returned, evs).
Proof.
  intros loads f t_end pre evs now r rest Hpre Hnow.
  rewrite (recv_loop_app loads f t_end pre _ evs Hpre). simpl.
  assert (E : (now <? t_end)%Z = false) by (apply Z.ltb_ge; exact Hnow).
  rewrite E. simpl. rewrite app_nil_r. reflexivity.
Qed.

(** Every run of [place_market_order] on an authenticated client with
    valid arguments sends the order POST first. *)
Lemma place_sent_post : forall loads c sn rp t s epic dir size fsize risk,
  cst c = Some t -> sec c = Some s -> t <> "" -> s <> "" ->
  py_float size = Ok fsize ->
  exists more,
    sent (snd (place_market_order loads epic (JStr dir) size risk (mkWorld c sn rp))) =
    (sn ++ post_request c t s (order_payload epic dir fsize risk) :: more)%list.
Proof.
  intros loads c sn rp t s epic dir size fsize risk Hct Hcs Ht Hs Hv.
  rewrite (place_eval loads c sn rp t s epic dir size fsize risk Hct Hcs Ht Hs Hv). cbv zeta.
  destruct rp as [|[r1|] rest]; [exists []; reflexivity | | exists []; reflexivity].
  destruct (status_ok (status_code r1)); [|exists []; reflexivity].
  destruct (loads (resp_text r1)) as [[| | | | | |d]|]; try (exists []; reflexivity).
  destruct rest as [|[r2|] rest'];
    [| destruct (status_ok (status_code r2)); [destruct (loads (resp_text r2))|] |];
    simpl; rewrite <- app_assoc; eexists; reflexivity.
Qed.

Lemma main_risk_ok : kwargs_ok main_risk.
Proof.
  split.
  - repeat constructor; simpl; intuition discriminate.
  - intros k Hk. simpl in Hk. intuition (subst; discriminate).
Qed.

(** ** Concrete runs of the script *)

Definition main_cap : client := new_client (base_url_of None) "KEY" "me" "pw".

Definition markets_reply (body : string) : response := mkResponse 200 [] (jtext body).

Definition main_replies (markets : string) : list (option response) :=
  [Some login_ok_reply; Some (mkResponse 200 [] "{}"); Some (markets_reply markets);
   Some (markets_reply "{'dealReference':'D1'}"); Some (markets_reply "{'dealStatus':'ACCEPTED'}")].

Definition main_w1 (markets : string) : world := snd (login (mkWorld main_cap [] (main_replies markets))).
Definition main_w2 (markets : string) : world := snd (ping json_loads_std (main_w1 markets)).
Definition main_w3 (markets : string) : world :=
  snd (search_markets json_loads_std "BTC" [] (main_w2 markets)).

(** ** Further properties: REST *)

(** X1: [ping], [search_markets] and [place_market_order] never modify the
    client object (only [login] writes the tokens), never remove or rewrite
    a logged request, send at most one request ([ping], [search_markets])
    or two ([place_market_order]: the order and its confirmation), and
    consume exactly one reply per request sent: no request is retried. *)
Theorem rest_calls_bookkeeping : forall loads,
  io_within 1 (ping loads) /\
  (forall term epics, io_within 1 (search_markets loads term epics)) /\
  (forall epic dir size risk, io_within 2 (place_market_order loads epic dir size risk)).
Proof.
  intros loads. split; [|split].
  - apply ping_io.
  - intros. apply search_io.
  - intros. apply place_io.
Qed.

(** X2: [login] always sends exactly one request, [POST
    <base>/api/v1/session] with the API key header and the body
    [{identifier, password, encryptedPassword: False}] (whatever tokens the
    client holds, none is sent), and consumes one reply.  When the transport
    fails it raises [ConnectionError], and on a 4xx/5xx status [HTTPError]
    for the session URL; in both cases the client keeps its previous
    tokens. *)
Theorem login_failure_keeps_client : forall c sn,
  (forall rp, sent (snd (login (mkWorld c sn rp))) = (sn ++ [login_request c])%list /\
              replies (snd (login (mkWorld c sn rp))) = skipn 1 rp) /\
  login (mkWorld c sn []) = (Err ConnectionError, mkWorld c (sn ++ [login_request c])%list []) /\
  (forall rest, login (mkWorld c sn (None :: rest)) =
                (Err ConnectionError, mkWorld c (sn ++ [login_request c])%list rest)) /\
  (forall r rest,
     status_ok (status_code r) = false ->
     login (mkWorld c sn (Some r :: rest)) =
     (Err (HTTPError (base_url c ++ "/api/v1/session") (status_code r)),
      mkWorld c (sn ++ [login_request c])%list rest)).
Proof.
  intros c sn. split; [|split; [|split]].
  - intros rp. apply login_sent.
  - reflexivity.
  - intros rest. reflexivity.
  - intros r rest H. unfold status_ok in H. apply negb_false_iff in H.
    unfold login. run_m. rewrite H. reflexivity.
Qed.

Lemma login_failure_keeps_client_witness :
  status_code (mkResponse 401 [] "") = 401 /\
  status_ok (status_code (mkResponse 401 [] "")) = false /\
  login (mkWorld order_client [] [Some (mkResponse 401 [] "")]) =
  (Err (HTTPError "https://demo/api/v1/session" 401),
   mkWorld order_client [login_request order_client] []).
Proof.
  assert (H : status_ok (status_code (mkResponse 401 [] "")) = false) by reflexivity.
  split; [reflexivity|]. split; [exact H|].
  exact (proj2 (proj2 (proj2 (login_failure_keeps_client order_client []))) _ [] H).
Defined.

(** X3: on a client holding non-empty tokens [t] and [s], [ping] sends one
    [GET <base>/api/v1/ping] whose headers are exactly [{CST: t,
    X-SECURITY-TOKEN: s}], with a 10 s timeout; it returns the decoded body
    of a 2xx/3xx reply, raises [HTTPError] for the ping URL on a 4xx/5xx
    status, [JSONDecodeError] on a body that is not JSON, and
    [ConnectionError] when the transport fails. *)
Theorem ping_authenticated : forall loads c sn rp t s,
  cst c = Some t -> sec c = Some s -> t <> "" -> s <> "" ->
  ping loads (mkWorld c sn rp) =
  let url := base_url c ++ "/api/v1/ping" in
  let q := mkRequest "GET" url [("CST", t); ("X-SECURITY-TOKEN", s)] [] None 10 in
  match rp with
  | [] => (Err ConnectionError, mkWorld c (sn ++ [q])%list [])
  | None :: rest => (Err ConnectionError, mkWorld c (sn ++ [q])%list rest)
  | Some r :: rest =>
      (if status_ok (status_code r) then
         match loads (resp_text r) with Some j => Ok j | None => Err JSONDecodeError end
       else Err (HTTPError url (status_code r)),
       mkWorld c (sn ++ [q])%list rest)
  end.
Proof. intros. apply ping_eval; assumption. Qed.

Lemma ping_authenticated_witness :
  cst order_client = Some "abc" /\ sec order_client = Some "xyz" /\ "abc" <> "" /\ "xyz" <> "" /\
  ping json_loads_std (mkWorld order_client [] [Some (mkResponse 503 [] "")]) =
  (Err (HTTPError "https://demo/api/v1/ping" 503),
   mkWorld order_client
     [mkRequest "GET" "https://demo/api/v1/ping" [("CST", "abc"); ("X-SECURITY-TOKEN", "xyz")] [] None 10] []).
Proof.
  assert (H1 : cst order_client = Some "abc") by reflexivity.
  assert (H2 : sec order_client = Some "xyz") by reflexivity.
  assert (H3 : "abc" <> "") by discriminate.
  assert (H4 : "xyz" <> "") by discriminate.
  repeat (split; [assumption|]).
  rewrite (ping_authenticated json_loads_std order_client [] [Some (mkResponse 503 [] "")]
             "abc" "xyz" H1 H2 H3 H4).
  reflexivity.
Defined.

(** X4: on a client holding non-empty tokens, [search_markets(term,
    epics)] sends one [GET <base>/api/v1/markets] with the two token
    headers, a 20 s timeout and the query [{searchTerm: term}] when [epics]
    is empty or [None], [{searchTerm: term, epics: ",".join(epics)}]
    otherwise; the reply is handled as in [ping]. *)
Theorem search_request_params : forall loads c sn rp t s term epics,
  cst c = Some t -> sec c = Some s -> t <> "" -> s <> "" ->
  search_markets loads term epics (mkWorld c sn rp) =
  let url := base_url c ++ "/api/v1/markets" in
  let q := mkRequest "GET" url [("CST", t); ("X-SECURITY-TOKEN", s)] (search_params term epics) None 20 in
  match rp with
  | [] => (Err ConnectionError, mkWorld c (sn ++ [q])%list [])
  | None :: rest => (Err ConnectionError, mkWorld c (sn ++ [q])%list rest)
  | Some r :: rest =>
      (if status_ok (status_code r) then
         match loads (resp_text r) with Some j => Ok j | None => Err JSONDecodeError end
       else Err (HTTPError url (status_code r)),
       mkWorld c (sn ++ [q])%list rest)
  end.
Proof. intros. apply search_eval; assumption. Qed.

Lemma search_request_params_witness :
  cst order_client = Some "abc" /\ sec order_client = Some "xyz" /\ "abc" <> "" /\ "xyz" <> "" /\
  search_markets json_loads_std "BTC" ["A"; "B"] (mkWorld order_client [] [Some (markets_reply "{}")]) =
  (Ok (JObj []),
   mkWorld order_client
     [mkRequest "GET" "https://demo/api/v1/markets" [("CST", "abc"); ("X-SECURITY-TOKEN", "xyz")]
        [("searchTerm", "BTC"); ("epics", "A,B")] None 20] []).
Proof.
  assert (H1 : cst order_client = Some "abc") by reflexivity.
  assert (H2 : sec order_client = Some "xyz") by reflexivity.
  assert (H3 : "abc" <> "") by discriminate.
  assert (H4 : "xyz" <> "") by discriminate.
  repeat (split; [assumption|]).
  rewrite (search_request_params json_loads_std order_client [] [Some (markets_reply "{}")]
             "abc" "xyz" "BTC" ["A"; "B"] H1 H2 H3 H4).
  vm_compute. reflexivity.
Defined.

(** X5: the [epics] query parameter identifies the epic list when no epic
    contains a comma: two comma-free lists (empty included) give the same
    query only if they are equal.  An epic containing a comma is not told
    apart: [["A,B"]] and [["A", "B"]] give the same query. *)
Theorem epics_param_injective :
  (forall term xs ys,
     Forall no_comma xs -> Forall no_comma ys ->
     search_params term xs = search_params term ys -> xs = ys) /\
  (forall term, search_params term ["A,B"] = search_params term ["A"; "B"]).
Proof.
  split.
  - intros term [|x xs] [|y ys] Fx Fy H; try reflexivity; try discriminate.
    simpl in H. injection H as Hj.
    apply join_comma_injective; [discriminate | discriminate | exact Fx | exact Fy | exact Hj].
  - reflexivity.
Qed.

Lemma epics_param_injective_witness :
  Forall no_comma ["EURUSD"; "BTCUSD"] /\ Forall no_comma ["EURUSD"; "BTCUSD"] /\
  search_params "x" ["EURUSD"; "BTCUSD"] = search_params "x" ["EURUSD"; "BTCUSD"] /\
  ["EURUSD"; "BTCUSD"] = ["EURUSD"; "BTCUSD"].
Proof.
  assert (F : Forall no_comma ["EURUSD"; "BTCUSD"]).
  { repeat constructor; unfold no_comma; simpl; intuition discriminate. }
  assert (E : search_params "x" ["EURUSD"; "BTCUSD"] = search_params "x" ["EURUSD"; "BTCUSD"])
    by reflexivity.
  split; [exact F|]. split; [exact F|]. split; [exact E|].
  exact (proj1 epics_param_injective "x" _ _ F F E).
Defined.



(** X7: when the order POST is accepted (non-error status) but its body is
    not JSON, or is JSON but not an object, [place_market_order] raises
    ([JSONDecodeError], resp. [AttributeError] for [.get]) after the POST:
    the order may have been placed, and no confirmation is requested. *)
Theorem place_reply_errors_skip_confirm : forall loads c sn t s epic dir size fsize risk r rest,
  cst c = Some t -> sec c = Some s -> t <> "" -> s <> "" ->
  py_float size = Ok fsize -> status_ok (status_code r) = true ->
  let post := post_request c t s (order_payload epic dir fsize risk) in
  (loads (resp_text r) = None ->
   place_market_order loads epic (JStr dir) size risk (mkWorld c sn (Some r :: rest)) =
   (Err JSONDecodeError, mkWorld c (sn ++ [post])%list rest)) /\
  (forall v, loads (resp_text r) = Some v -> (forall d, v <> JObj d) ->
   place_market_order loads epic (JStr dir) size risk (mkWorld c sn (Some r :: rest)) =
   (Err (AttributeError "get"), mkWorld c (sn ++ [post])%list rest)).
Proof.
  intros loads c sn t s epic dir size fsize risk r rest Hct Hcs Ht Hs Hv Hr post.
  rewrite (place_eval loads c sn _ t s epic dir size fsize risk Hct Hcs Ht Hs Hv). cbv zeta.
  rewrite Hr. split.
  - intros Hl. rewrite Hl. reflexivity.
  - intros v Hl Hnd. rewrite Hl.
    destruct v; try reflexivity. exfalso. exact (Hnd kvs eq_refl).
Qed.

Lemma place_reply_errors_skip_confirm_witness :
  cst order_client = Some "abc" /\ sec order_client = Some "xyz" /\ "abc" <> "" /\ "xyz" <> "" /\
  py_float (JInt 1) = Ok (JFloat (inject_Z 1)) /\
  status_ok (status_code (markets_reply "[1]")) = true /\
  json_loads_std (resp_text (markets_reply "[1]")) = Some (JArr [JInt 1]) /\
  place_market_order json_loads_std (JStr "BTCUSD") (JStr "buy") (JInt 1) []
    (mkWorld order_client [] [Some (markets_reply "[1]")]) =
  (Err (AttributeError "get"),
   mkWorld order_client
     ([] ++ [post_request order_client "abc" "xyz"
               (order_payload (JStr "BTCUSD") "buy" (JFloat (inject_Z 1)) [])])%list []).
Proof.
  assert (H1 : cst order_client = Some "abc") by reflexivity.
  assert (H2 : sec order_client = Some "xyz") by reflexivity.
  assert (H3 : "abc" <> "") by discriminate.
  assert (H4 : "xyz" <> "") by discriminate.
  assert (H5 : py_float (JInt 1) = Ok (JFloat (inject_Z 1))) by reflexivity.
  assert (H6 : status_ok (status_code (markets_reply "[1]")) = true) by reflexivity.
  assert (H7 : json_loads_std (resp_text (markets_reply "[1]")) = Some (JArr [JInt 1]))
    by (vm_compute; reflexivity).
  assert (H8 : forall d, JArr [JInt 1] <> JObj d) by discriminate.
  repeat (split; [assumption|]).
  exact (proj2 (place_reply_errors_skip_confirm json_loads_std order_client [] "abc" "xyz"
                  (JStr "BTCUSD") "buy" (JInt 1) (JFloat (inject_Z 1)) [] (markets_reply "[1]") []
                  H1 H2 H3 H4 H5 H6) _ H7 H8).
Defined.



(** ** Further properties: [BASE_URL] and the stream *)

(** X9: [BASE_URL] is the value of [CAPITAL_BASE_URL] (the demo host when
    unset; a set but empty variable gives the empty string) without its
    trailing slashes: it never ends in ["/"], and the value is [BASE_URL]
    followed by some number of slashes, so the endpoint URLs
    [f"{base_url}/api/v1/..."] have a single slash there. *)
Theorem base_url_strips_slashes : forall v,
  let raw := match v with Some s => s | None => default_base_url end in
  (exists k, raw = base_url_of v ++ slashes k) /\
  (forall pre, base_url_of v <> pre ++ "/") /\
  base_url_of None = default_base_url /\
  base_url_of (Some "") = "" /\
  base_url_of (Some "https://x.example//") = "https://x.example".
Proof.
  intros v raw. destruct (rstrip_slash_spec raw) as [H1 H2].
  split; [exact H1|]. split; [exact H2|].
  split; [vm_compute; reflexivity|]. split; [reflexivity|]. vm_compute. reflexivity.
Qed.

(** X10: a failure of [create_connection] propagates before anything is
    sent, and no close is attempted (the call is outside the [try]); a
    failure of the subscribe send propagates after the close attempt,
    without reading any frame: the outcome depends neither on the frames
    nor on [run_seconds]. *)
Theorem stream_setup_failures : forall loads c epics f rs env,
  (forall e, ws_connect env = Some e ->
     stream_quotes loads c epics f rs env = (Raised e, [])) /\
  (forall e, ws_connect env = None -> ws_send env = Some e ->
     stream_quotes loads c epics f rs env = (Raised e, [WsSend (subscribe_msg c epics); WsClose])).
Proof.
  intros loads c epics f rs env. split.
  - intros e H. unfold stream_quotes. rewrite H. reflexivity.
  - intros e H1 H2. unfold stream_quotes. rewrite H1, H2. reflexivity.
Qed.

Definition env_refused : ws_env := mkWsEnv (Some WebSocketError) None 0 [] None.

Lemma stream_setup_failures_witness :
  ws_connect env_refused = Some WebSocketError /\
  stream_quotes json_loads_std demo_client [JStr "X"] no_consumer_error 30 env_refused =
  (Raised WebSocketError, []).
Proof.
  assert (H : ws_connect env_refused = Some WebSocketError) by reflexivity.
  split; [exact H|].
  exact (proj1 (stream_setup_failures json_loads_std demo_client [JStr "X"] no_consumer_error 30
                  env_refused) _ H).
Defined.

(** X11: the session returns at the first clock reading at or after
    [t_end = t0 + run_seconds]: nothing more is received or delivered, the
    later frames are never read, and the session ends with the close
    attempt.  In particular with [run_seconds <= 0] (and a clock that does
    not go back) no frame is read at all. *)
Theorem stream_stops_at_deadline : forall loads c epics f rs env,
  ws_connect env = None -> ws_send env = None ->
  (forall pre evs now r rest,
     ws_ticks env = (pre ++ (now, r) :: rest)%list ->
     recv_loop loads f (ws_t0 env + rs) pre = (Pending, evs) ->
     ws_t0 env + rs <= now ->
     stream_quotes loads c epics f rs env =
     (Returned, (WsSend (subscribe_msg c epics) :: evs ++ [WsClose])%list)) /\
  (forall now r rest,
     ws_ticks env = (now, r) :: rest -> rs <= 0 -> ws_t0 env <= now ->
     stream_quotes loads c epics f rs env = (Returned, [WsSend (subscribe_msg c epics); WsClose])).
Proof.
  intros loads c epics f rs env Hc Hs.
  assert (G : forall pre evs now r rest,
     ws_ticks env = (pre ++ (now, r) :: rest)%list ->
     recv_loop loads f (ws_t0 env + rs) pre = (Pending, evs) ->
     ws_t0 env + rs <= now ->
     stream_quotes loads c epics f rs env =
     (Returned, (WsSend (subscribe_msg c epics) :: evs ++ [WsClose])%list)).
  { intros pre evs now r rest Ht Hpre Hnow.
    unfold stream_quotes. rewrite Hc, Hs, Ht.
    rewrite (recv_loop_deadline loads f _ pre evs now r rest Hpre Hnow). reflexivity. }
  split; [exact G|].
  intros now r rest Ht Hrs Hnow.
  exact (G [] [] now r rest Ht eq_refl ltac:(lia)).
Qed.

Definition env_late : ws_env :=
  mkWsEnv None None 0 [(5, RecvMsg (Some quote_frame)); (6, RecvMsg (Some quote_frame))] None.

Lemma stream_stops_at_deadline_witness :
  ws_connect env_late = None /\ ws_send env_late = None /\
  ws_ticks env_late = (5, RecvMsg (Some quote_frame)) :: [(6, RecvMsg (Some quote_frame))] /\
  0 <= 0 /\ ws_t0 env_late <= 5 /\
  stream_quotes json_loads_std demo_client [JStr "X"] no_consumer_error 0 env_late =
  (Returned, [WsSend (subscribe_msg demo_client [JStr "X"]); WsClose]).
Proof.
  assert (H1 : ws_connect env_late = None) by reflexivity.
  assert (H2 : ws_send env_late = None) by reflexivity.
  assert (H3 : ws_ticks env_late = (5, RecvMsg (Some quote_frame)) :: [(6, RecvMsg (Some quote_frame))])
    by reflexivity.
  assert (H4 : 0 <= 0) by lia.
  assert (H5 : ws_t0 env_late <= 5) by (simpl; lia).
  repeat (split; [assumption|]).
  exact (proj2 (stream_stops_at_deadline json_loads_std demo_client [JStr "X"] no_consumer_error 0
                  env_late H1 H2) 5 _ _ H3 ltac:(lia) H5).
Defined.

(** ** Further properties: the script *)

(** X12: when [cap.login()] raises, the script stops with that exception
    after the single login request: no ping, no search, no socket is
    opened and no order is placed. *)
Theorem main_login_failure : forall loads eb key ident pass rp env e,
  fst (login (mkWorld (new_client (base_url_of eb) key ident pass) [] rp)) = Err e ->
  main_script loads eb key ident pass rp env =
  (MainRaised (PyErr e), [login_request (new_client (base_url_of eb) key ident pass)], []).
Proof.
  intros loads eb key ident pass rp env e H. unfold main_script.
  pose proof (proj1 (login_sent (new_client (base_url_of eb) key ident pass) [] rp)) as Hs.
  destruct (login _) as [[x|e'] w1]; simpl in H, Hs; [discriminate|].
  inversion H; subst. rewrite Hs. reflexivity.
Qed.

Lemma main_login_failure_witness :
  fst (login (mkWorld main_cap [] [Some (mkResponse 200 [("CST", "abc")] "{}")])) = Err missing_tokens /\
  main_script json_loads_std None "KEY" "me" "pw" [Some (mkResponse 200 [("CST", "abc")] "{}")] env_quiet =
  (MainRaised (PyErr missing_tokens), [login_request main_cap], []).
Proof.
  assert (H : fst (login (mkWorld main_cap [] [Some (mkResponse 200 [("CST", "abc")] "{}")])) =
              Err missing_tokens) by (vm_compute; reflexivity).
  split; [exact H|].
  exact (main_login_failure json_loads_std None "KEY" "me" "pw" _ env_quiet missing_tokens H).
Defined.

(** X13: when [markets.get("markets", [{}])[0].get("epic")] raises (for
    instance [IndexError] on an empty ["markets"] list, or
    [AttributeError] when the search body or its first market is not an
    object), the script stops with that exception after its three REST
    requests (login, ping, search for "BTC"), before opening the socket. *)
Theorem main_epic_lookup_error : forall loads eb key ident pass rp env x y markets w1 w2 w3 e,
  let cap := new_client (base_url_of eb) key ident pass in
  login (mkWorld cap [] rp) = (Ok x, w1) ->
  ping loads w1 = (Ok y, w2) ->
  search_markets loads "BTC" [] w2 = (Ok markets, w3) ->
  first_epic markets = inl e ->
  (exists t s,
     main_script loads eb key ident pass rp env =
     (MainRaised e,
      [login_request cap;
       mkRequest "GET" (base_url cap ++ "/api/v1/ping") [("CST", t); ("X-SECURITY-TOKEN", s)] [] None 10;
       mkRequest "GET" (base_url cap ++ "/api/v1/markets") [("CST", t); ("X-SECURITY-TOKEN", s)]
         [("searchTerm", "BTC")] None 20], [])) /\
  (forall d, dict_get d "markets" = Some (JArr []) -> first_epic (JObj d) = inl IndexError).
Proof.
  intros loads eb key ident pass rp env x y markets w1 w2 w3 e cap H1 H2 H3 He.
  split.
  - destruct (main_prefix loads cap rp x y markets w1 w2 w3 H1 H2 H3) as [t [s [_ [_ [_ Hs]]]]].
    exists t, s. unfold main_script. fold cap. rewrite H1, H2, H3, He, Hs. reflexivity.
  - intros d Hd. unfold first_epic. rewrite Hd. reflexivity.
Qed.

Lemma main_epic_lookup_error_witness :
  login (mkWorld main_cap [] (main_replies "{'markets':[]}")) = (Ok true, main_w1 "{'markets':[]}") /\
  ping json_loads_std (main_w1 "{'markets':[]}") = (Ok (JObj []), main_w2 "{'markets':[]}") /\
  search_markets json_loads_std "BTC" [] (main_w2 "{'markets':[]}") =
    (Ok (JObj [("markets", JArr [])]), main_w3 "{'markets':[]}") /\
  first_epic (JObj [("markets", JArr [])]) = inl IndexError /\
  exists t s,
    main_script json_loads_std None "KEY" "me" "pw" (main_replies "{'markets':[]}") env_quiet =
    (MainRaised IndexError,
     [login_request main_cap;
      mkRequest "GET" (base_url main_cap ++ "/api/v1/ping") [("CST", t); ("X-SECURITY-TOKEN", s)] [] None 10;
      mkRequest "GET" (base_url main_cap ++ "/api/v1/markets") [("CST", t); ("X-SECURITY-TOKEN", s)]
        [("searchTerm", "BTC")] None 20], []).
Proof.
  assert (H1 : login (mkWorld main_cap [] (main_replies "{'markets':[]}")) = (Ok true, main_w1 "{'markets':[]}"))
    by (vm_compute; reflexivity).
  assert (H2 : ping json_loads_std (main_w1 "{'markets':[]}") = (Ok (JObj []), main_w2 "{'markets':[]}"))
    by (vm_compute; reflexivity).
  assert (H3 : search_markets json_loads_std "BTC" [] (main_w2 "{'markets':[]}") =
               (Ok (JObj [("markets", JArr [])]), main_w3 "{'markets':[]}")) by (vm_compute; reflexivity).
  assert (H4 : first_epic (JObj [("markets", JArr [])]) = inl IndexError) by reflexivity.
  repeat (split; [assumption|]).
  exact (proj1 (main_epic_lookup_error json_loads_std None "KEY" "me" "pw" _ env_quiet true (JObj [])
                  _ _ _ _ IndexError H1 H2 H3 H4)).
Defined.

(** X14: when the epic found is falsy (the search body has no ["markets"]
    key, so the default [[{}]] yields [None]; or the first market has no
    or an empty ["epic"]), the script streams quotes for [[first_epic]]
    (e.g. [[None]]) and then places no order: after the three REST
    requests nothing more is sent, and the script ends as the stream
    session does. *)
Theorem main_no_epic_no_order : forall loads eb key ident pass rp env x y markets w1 w2 w3 fe,
  let cap := new_client (base_url_of eb) key ident pass in
  login (mkWorld cap [] rp) = (Ok x, w1) ->
  ping loads w1 = (Ok y, w2) ->
  search_markets loads "BTC" [] w2 = (Ok markets, w3) ->
  first_epic markets = inr fe -> truthy fe = false ->
  let sess := stream_quotes loads (cl w3) [fe] print_quote 20 env in
  main_script loads eb key ident pass rp env =
  (match fst sess with
   | Raised e => MainRaised (PyErr e)
   | Pending => MainPending
   | Returned => MainDone
   end, sent w3, snd sess) /\
  List.length (sent w3) = 3%nat /\
  (forall d, dict_get d "markets" = None -> first_epic (JObj d) = inr JNull).
Proof.
  intros loads eb key ident pass rp env x y markets w1 w2 w3 fe cap H1 H2 H3 He Ht sess.
  split; [|split].
  - unfold main_script. fold cap. rewrite H1, H2, H3, He. fold sess.
    destruct sess as [[| e |] evs]; simpl; try reflexivity. rewrite Ht. reflexivity.
  - destruct (main_prefix loads cap rp x y markets w1 w2 w3 H1 H2 H3) as [t [s [_ [_ [_ Hs]]]]].
    rewrite Hs. reflexivity.
  - intros d Hd. unfold first_epic. rewrite Hd. reflexivity.
Qed.

Lemma main_no_epic_no_order_witness :
  login (mkWorld main_cap [] (main_replies "{}")) = (Ok true, main_w1 "{}") /\
  ping json_loads_std (main_w1 "{}") = (Ok (JObj []), main_w2 "{}") /\
  search_markets json_loads_std "BTC" [] (main_w2 "{}") = (Ok (JObj []), main_w3 "{}") /\
  first_epic (JObj []) = inr JNull /\ truthy JNull = false /\
  main_script json_loads_std None "KEY" "me" "pw" (main_replies "{}") env_quiet =
  (match fst (stream_quotes json_loads_std (cl (main_w3 "{}")) [JNull] print_quote 20 env_quiet) with
   | Raised e => MainRaised (PyErr e)
   | Pending => MainPending
   | Returned => MainDone
   end, sent (main_w3 "{}"), snd (stream_quotes json_loads_std (cl (main_w3 "{}")) [JNull] print_quote 20 env_quiet)).
Proof.
  assert (H1 : login (mkWorld main_cap [] (main_replies "{}")) = (Ok true, main_w1 "{}"))
    by (vm_compute; reflexivity).
  assert (H2 : ping json_loads_std (main_w1 "{}") = (Ok (JObj []), main_w2 "{}"))
    by (vm_compute; reflexivity).
  assert (H3 : search_markets json_loads_std "BTC" [] (main_w2 "{}") = (Ok (JObj []), main_w3 "{}"))
    by (vm_compute; reflexivity).
  assert (H4 : first_epic (JObj []) = inr JNull) by reflexivity.
  assert (H5 : truthy JNull = false) by reflexivity.
  repeat (split; [assumption|]).
  exact (proj1 (main_no_epic_no_order json_loads_std None "KEY" "me" "pw" _ env_quiet true (JObj [])
                  (JObj []) _ _ _ JNull H1 H2 H3 H4 H5)).
Defined.

(** X15: when the epic found is truthy and the stream session returns
    (its deadline passed), the script's fourth request is the order POST
    to [/api/v1/positions] with the login's tokens and the payload
    [{epic, direction: "BUY", size: 1.0, profitDistance: 10,
    stopDistance: 10, guaranteedStop: False}]: the [False] keyword is sent,
    only [None] values are dropped.  The socket actions are those of the
    session. *)
Theorem main_places_order : forall loads eb key ident pass rp env x y markets w1 w2 w3 fe,
  let cap := new_client (base_url_of eb) key ident pass in
  login (mkWorld cap [] rp) = (Ok x, w1) ->
  ping loads w1 = (Ok y, w2) ->
  search_markets loads "BTC" [] w2 = (Ok markets, w3) ->
  first_epic markets = inr fe -> truthy fe = true ->
  fst (stream_quotes loads (cl w3) [fe] print_quote 20 env) = Returned ->
  exists t s more,
    snd (fst (main_script loads eb key ident pass rp env)) =
    ([login_request cap;
      mkRequest "GET" (base_url cap ++ "/api/v1/ping") [("CST", t); ("X-SECURITY-TOKEN", s)] [] None 10;
      mkRequest "GET" (base_url cap ++ "/api/v1/markets") [("CST", t); ("X-SECURITY-TOKEN", s)]
        [("searchTerm", "BTC")] None 20;
      post_request cap t s
        [("epic", fe); ("direction", JStr "BUY"); ("size", JFloat (inject_Z 1));
         ("profitDistance", JInt 10); ("stopDistance", JInt 10); ("guaranteedStop", JBool false)]]
     ++ more)%list /\
    snd (main_script loads eb key ident pass rp env) = snd (stream_quotes loads (cl w3) [fe] print_quote 20 env).
Proof.
  intros loads eb key ident pass rp env x y markets w1 w2 w3 fe cap H1 H2 H3 He Ht Hst.
  destruct (main_prefix loads cap rp x y markets w1 w2 w3 H1 H2 H3) as [t [s [Hc [Hnt [Hns Hs]]]]].
  destruct w3 as [c3 sn3 rp3]. simpl in Hc, Hs. subst c3.
  destruct (place_sent_post loads (set_tokens cap (Some t) (Some s)) sn3 rp3 t s fe "BUY" (JInt 1)
              (JFloat (inject_Z 1)) main_risk eq_refl eq_refl Hnt Hns eq_refl) as [more Hmore].
  rewrite (order_payload_shape fe "BUY" (JFloat (inject_Z 1)) main_risk main_risk_ok) in Hmore.
  exists t, s, more.
  unfold main_script. fold cap. rewrite H1, H2, H3, He.
  destruct (stream_quotes loads _ [fe] print_quote 20 env) as [o evs]. simpl in Hst. subst o.
  rewrite Ht.
  destruct (place_market_order loads fe (JStr "BUY") (JInt 1) main_risk
              (mkWorld (set_tokens cap (Some t) (Some s)) sn3 rp3)) as [[v|e] w4] eqn:Ep;
    try rewrite Ep in Hmore; simpl in Hmore |- *; rewrite Hmore, Hs; split; reflexivity.
Qed.

Lemma main_places_order_witness :
  let mk := "{'markets':[{'epic':'BTCUSD'}]}" in
  login (mkWorld main_cap [] (main_replies mk)) = (Ok true, main_w1 mk) /\
  ping json_loads_std (main_w1 mk) = (Ok (JObj []), main_w2 mk) /\
  search_markets json_loads_std "BTC" [] (main_w2 mk) =
    (Ok (JObj [("markets", JArr [JObj [("epic", JStr "BTCUSD")]])]), main_w3 mk) /\
  first_epic (JObj [("markets", JArr [JObj [("epic", JStr "BTCUSD")]])]) = inr (JStr "BTCUSD") /\
  truthy (JStr "BTCUSD") = true /\
  fst (stream_quotes json_loads_std (cl (main_w3 mk)) [JStr "BTCUSD"] print_quote 20 env_quiet) = Returned /\
  exists t s more,
    snd (fst (main_script json_loads_std None "KEY" "me" "pw" (main_replies mk) env_quiet)) =
    ([login_request main_cap;
      mkRequest "GET" (base_url main_cap ++ "/api/v1/ping") [("CST", t); ("X-SECURITY-TOKEN", s)] [] None 10;
      mkRequest "GET" (base_url main_cap ++ "/api/v1/markets") [("CST", t); ("X-SECURITY-TOKEN", s)]
        [("searchTerm", "BTC")] None 20;
      post_request main_cap t s
        [("epic", JStr "BTCUSD"); ("direction", JStr "BUY"); ("size", JFloat (inject_Z 1));
         ("profitDistance", JInt 10); ("stopDistance", JInt 10); ("guaranteedStop", JBool false)]]
     ++ more)%list /\
    snd (main_script json_loads_std None "KEY" "me" "pw" (main_replies mk) env_quiet) =
    snd (stream_quotes json_loads_std (cl (main_w3 mk)) [JStr "BTCUSD"] print_quote 20 env_quiet).
Proof.
  intros mk.
  assert (H1 : login (mkWorld main_cap [] (main_replies mk)) = (Ok true, main_w1 mk))
    by (vm_compute; reflexivity).
  assert (H2 : ping json_loads_std (main_w1 mk) = (Ok (JObj []), main_w2 mk))
    by (vm_compute; reflexivity).
  assert (H3 : search_markets json_loads_std "BTC" [] (main_w2 mk) =
               (Ok (JObj [("markets", JArr [JObj [("epic", JStr "BTCUSD")]])]), main_w3 mk))
    by (vm_compute; reflexivity).
  assert (H4 : first_epic (JObj [("markets", JArr [JObj [("epic", JStr "BTCUSD")]])]) = inr (JStr "BTCUSD"))
    by reflexivity.
  assert (H5 : truthy (JStr "BTCUSD") = true) by reflexivity.
  assert (H6 : fst (stream_quotes json_loads_std (cl (main_w3 mk)) [JStr "BTCUSD"] print_quote 20 env_quiet)
               = Returned) by (vm_compute; reflexivity).
  repeat (split; [assumption|]).
  exact (main_places_order json_loads_std None "KEY" "me" "pw" _ env_quiet true (JObj []) _ _ _ _
           (JStr "BTCUSD") H1 H2 H3 H4 H5 H6).
Defined.
